(** * wallet.py: the wallet store, wallet generation, transaction submission
      and history lookup of [CryptoWallet]

    The class keeps one JSON file per wallet in the directory 'wallets' and
    an in-memory dict [self.accounts]; everything else is delegated to
    collaborators (web3, eth_account, requests, json, secrets).  The
    embedding below threads the program state explicitly through a small
    state-and-exception monad and takes the collaborators as a record of
    functions, so that every statement holds for whatever the libraries,
    the node and the explorer answer.

    Conventions of the model:
    - the directory 'wallets' is a finite map from file names to file
      texts (regular, readable files only), listed by [os.listdir] in an
      order the program does not control;
    - the requests sent to the node and to the explorer are recorded in
      the state, as are the printed lines and the successive contents of
      the directory;
    - the amount of a transfer is a rational number, and its conversion
      to wei belongs to the collaborators. *)

From Stdlib Require Import ZArith QArith Ascii.
From stdpp Require Import gmap strings list fin_maps pretty.

Local Open Scope Z_scope.
Set Warnings "-register-all".

(** ** Python values *)

(** The values handled by the class are the ones [json.load] produces.
    Dicts keep their insertion order (it is the order [json.dump] writes
    the fields in), hence the association list.  JSON numbers with a
    fraction or an exponent (Python floats) are left out of the value
    model. *)
Inductive pyval : Type :=
| PNone
| PBool (b : bool)
| PInt (z : Z)
| PStr (s : string)
| PList (items : list pyval)
| PDict (fields : list (string * pyval)).

(** Exceptions, all of them subclasses of [Exception].  [OtherError] is
    an exception class of a collaborator, with its class name and its
    message. *)
Inductive Exn : Type :=
| ValueError (msg : string)
| KeyError (key : string)
| TypeError (msg : string)
| FileNotFoundError (path : string)
| OtherError (cls msg : string).

(** [str(e)] *)
Definition exn_str (e : Exn) : string :=
  match e with
  | ValueError msg => msg
  | KeyError key => "'" +:+ key +:+ "'"
  | TypeError msg => msg
  | FileNotFoundError path =>
      "[Errno 2] No such file or directory: '" +:+ path +:+ "'"
  | OtherError _ msg => msg
  end.

(** Keys of [self.accounts].  Python compares dict keys with [==] and
    [True == 1], [False == 0]; lists and dicts are unhashable. *)
Inductive pykey : Type :=
| KNone
| KInt (z : Z)
| KStr (s : string).

#[global] Instance pykey_eq_dec : EqDecision pykey.
Proof. solve_decision. Defined.

#[global] Instance pykey_countable : Countable pykey.
Proof.
  refine (inj_countable'
            (λ k, match k with
                  | KNone => inl ()
                  | KInt z => inr (inl z)
                  | KStr s => inr (inr s)
                  end)
            (λ x, match x with
                  | inl _ => KNone
                  | inr (inl z) => KInt z
                  | inr (inr s) => KStr s
                  end) _).
  by intros [].
Defined.

Definition type_name (v : pyval) : string :=
  match v with
  | PNone => "NoneType"
  | PBool _ => "bool"
  | PInt _ => "int"
  | PStr _ => "str"
  | PList _ => "list"
  | PDict _ => "dict"
  end.

(** [hash(v)] as far as dict keys are concerned *)
Definition to_key (v : pyval) : Exn + pykey :=
  match v with
  | PNone => inr KNone
  | PBool b => inr (KInt (if b then 1 else 0))
  | PInt z => inr (KInt z)
  | PStr s => inr (KStr s)
  | PList _ | PDict _ => inl (TypeError ("unhashable type: '" +:+ type_name v +:+ "'"))
  end.

Fixpoint assoc (k : string) (fields : list (string * pyval)) : option pyval :=
  match fields with
  | [] => None
  | (k', v) :: rest => if decide (k' = k) then Some v else assoc k rest
  end.

(** [v[k]] for a string [k] *)
Definition py_getitem (v : pyval) (k : string) : Exn + pyval :=
  match v with
  | PDict fields =>
      match assoc k fields with
      | Some x => inr x
      | None => inl (KeyError k)
      end
  | PList _ => inl (TypeError "list indices must be integers or slices, not str")
  | PStr _ => inl (TypeError "string indices must be integers, not 'str'")
  | _ => inl (TypeError ("'" +:+ type_name v +:+ "' object is not subscriptable"))
  end.

(** [v == "..."] against a string literal *)
Definition py_eq_str (v : pyval) (s : string) : bool :=
  match v with
  | PStr s' => bool_decide (s' = s)
  | _ => false
  end.

Definition dquote : string := String (Ascii.ascii_of_nat 34) EmptyString.

(** [for x in v] *)
Definition py_iter (v : pyval) : Exn + list pyval :=
  match v with
  | PList items => inr items
  | PDict fields => inr (PStr <$> fields.*1)
  | PStr s => inr ((λ c, PStr (String c EmptyString)) <$> String.list_ascii_of_string s)
  | _ => inl (TypeError ("'" +:+ type_name v +:+ "' object is not iterable"))
  end.

(** [s.endswith(suffix)] *)
Definition endswith (s suffix : string) : bool :=
  let n := String.length s in
  let m := String.length suffix in
  (m <=? n)%nat && bool_decide (String.substring (n - m) m s = suffix).

(** ** The program state and the collaborators *)

(** A request sent over the network: the JSON-RPC calls web3 makes to the
    node, and the HTTP query to the block explorer. *)
Inductive Request : Type :=
| RpcGetTransactionCount (address : string)
| RpcGasPrice
| RpcChainId
| RpcSendRawTransaction (raw : string)
| RpcWaitForTransactionReceipt (tx_hash : string)
| HttpGet (url : string) (params : list (string * pyval)).

(** What [requests.get] returns: the status code, and what
    [response.json()] gives for the body. *)
Record Response : Type := mkResponse {
  status_code : Z;
  json_body : Exn + pyval
}.

(** The transaction dictionary of [send_transaction] *)
Record Transaction : Type := mkTransaction {
  tx_nonce : Z;
  tx_to : string;
  tx_value : Z;
  tx_gas : Z;
  tx_gasPrice : Z;
  tx_chainId : Z
}.

(** The contents of the directory 'wallets': file name to file text. *)
Abbreviation Directory := (gmap string string).

(** The libraries the class calls.  The functions of the node and of the
    explorer see the requests made before theirs, so their answers may
    change over time; [token_hex] is indexed by the number of earlier
    draws; [listdir] lists a directory in an order of its own.
    [from_key k] is [Account.from_key(k).address], [keccak_text_hex a] is
    [web3.keccak(text=a).hex()], [json_dump_chunks v] the pieces
    [json.dump(v, f, indent=4)] passes to [f.write], one after the
    other. *)
Record Collaborators : Type := mkCollaborators {
  INFURA_API_KEY : string;
  ETHERSCAN_API_KEY : string;
  is_address : string → bool;
  from_key : string → Exn + string;
  keccak_text_hex : string → string;
  to_wei_ether : Q → Exn + Z;
  from_wei_ether : Z → Exn + Q;
  to_hex : string → string;
  sign_transaction : Transaction → string → Exn + string;
  int_of_str : string → Exn + Z;
  strftime_fromtimestamp : Z → Exn + string;
  json_loads : string → Exn + pyval;
  json_dump_chunks : pyval → list string;
  token_hex : nat → nat → string;
  listdir : Directory → list string;
  get_transaction_count : list Request → string → Exn + Z;
  gas_price : list Request → Exn + Z;
  chain_id : list Request → Exn + Z;
  send_raw_transaction : list Request → string → Exn + string;
  wait_for_transaction_receipt : list Request → string → Exn + pyval;
  requests_get : list Request → string → list (string * pyval) → Exn + Response;
  listdir_perm : ∀ d : Directory, listdir d ≡ₚ (map_to_list d).*1;
  token_hex_length : ∀ n i, String.length (token_hex n i) = (2 * n)%nat
}.

(** The state a method runs in: the two attributes of [self] that vary
    ([network], [accounts]), the directory 'wallets' ([None] while it does
    not exist), the lines printed, the requests sent, and the number of
    random draws.  [journal] is a ghost field: the directory after each
    successive write operation, that is, the contents an interruption of
    the process can leave behind. *)
Record State : Type := mkState {
  network : string;
  accounts : gmap pykey pyval;
  disk : option Directory;
  journal : list (option Directory);
  stdout : list string;
  requests : list Request;
  draws : nat
}.

Definition set_network (n : string) (st : State) : State :=
  mkState n (accounts st) (disk st) (journal st) (stdout st) (requests st) (draws st).
Definition set_accounts (a : gmap pykey pyval) (st : State) : State :=
  mkState (network st) a (disk st) (journal st) (stdout st) (requests st) (draws st).
Definition set_disk (d : option Directory) (st : State) : State :=
  mkState (network st) (accounts st) d (journal st ++ [d]) (stdout st) (requests st) (draws st).
Definition add_stdout (line : string) (st : State) : State :=
  mkState (network st) (accounts st) (disk st) (journal st) (stdout st ++ [line]) (requests st) (draws st).
Definition add_request (r : Request) (st : State) : State :=
  mkState (network st) (accounts st) (disk st) (journal st) (stdout st) (requests st ++ [r]) (draws st).
Definition add_draw (st : State) : State :=
  mkState (network st) (accounts st) (disk st) (journal st) (stdout st) (requests st) (S (draws st)).

(** ** The monad: state plus exceptions *)

Definition M (A : Type) : Type := State → (Exn + A) * State.

Definition ret {A} (a : A) : M A := λ st, (inr a, st).
Definition raise {A} (e : Exn) : M A := λ st, (inl e, st).
Definition bind {A B} (m : M A) (k : A → M B) : M B :=
  λ st, match m st with
        | (inr a, st') => k a st'
        | (inl e, st') => (inl e, st')
        end.
(** [try: m except Exception as e: handler e] *)
Definition try_except {A} (m : M A) (handler : Exn → M A) : M A :=
  λ st, match m st with
        | (inr a, st') => (inr a, st')
        | (inl e, st') => handler e st'
        end.
(** a call that returns or raises without touching the state *)
Definition lift {A} (r : Exn + A) : M A := λ st, (r, st).
(** an update of the state *)
Definition modify (f : State → State) : M unit := λ st, (inr (), f st).

#[global] Instance M_ret : MRet M := @ret.
#[global] Instance M_bind : MBind M := λ A B k m, bind m k.

(** [for x in xs: body x] *)
Fixpoint for_each {A} (xs : list A) (body : A → M unit) : M unit :=
  match xs with
  | [] => ret tt
  | x :: rest => body x;; for_each rest body
  end.

(** ** The class [CryptoWallet] *)

(** One entry of [self.networks] *)
Record NetworkConfig : Type := mkNetworkConfig {
  url : string;
  explorer : string;
  explorer_key : string;
  faucet : string
}.

(** What [get_transaction_history] returns for one transaction: the dict
    built by [_format_transactions], whose keys are fixed. *)
Record TxSummary : Type := mkTxSummary {
  s_hash : pyval;
  s_from : pyval;
  s_to : pyval;
  s_value : Q;
  s_gas_used : pyval;
  s_timestamp : string;
  s_status : string
}.

Section CryptoWallet.
Context (env : Collaborators).

Definition networks : list (string * NetworkConfig) :=
  [ ("sepolia",
     mkNetworkConfig ("https://sepolia.infura.io/v3/" +:+ INFURA_API_KEY env)
                     "https://api-sepolia.etherscan.io/api"
                     (ETHERSCAN_API_KEY env)
                     "https://sepoliafaucet.com/");
    ("goerli",
     mkNetworkConfig ("https://goerli.infura.io/v3/" +:+ INFURA_API_KEY env)
                     "https://api-goerli.etherscan.io/api"
                     (ETHERSCAN_API_KEY env)
                     "https://goerlifaucet.com/") ].

(** [self.networks[name]] *)
Definition lookup_network (name : string) : Exn + NetworkConfig :=
  match list_find (λ entry, entry.1 = name) networks with
  | Some (_, (_, cfg)) => inr cfg
  | None => inl (KeyError name)
  end.

(** *** Primitive operations *)

Definition get_network : M string := λ st, (inr (network st), st).
Definition get_accounts : M (gmap pykey pyval) := λ st, (inr (accounts st), st).

(** [self.accounts[k] = v] *)
Definition setitem_accounts (k v : pyval) : M unit :=
  key ← lift (to_key k);
  modify (λ st, set_accounts (<[key := v]> (accounts st)) st).

(** [os.path.exists('wallets')] *)
Definition path_exists : M bool :=
  λ st, (inr (bool_decide (is_Some (disk st))), st).

(** [os.makedirs('wallets', exist_ok=True)] *)
Definition makedirs : M unit :=
  λ st, match disk st with
        | Some _ => (inr (), st)
        | None => (inr (), set_disk (Some ∅) st)
        end.

(** [os.listdir('wallets')] *)
Definition os_listdir : M (list string) :=
  λ st, match disk st with
        | Some d => (inr (listdir env d), st)
        | None => (inl (FileNotFoundError "wallets"), st)
        end.

(** the text of [open(os.path.join('wallets', name), 'r')] *)
Definition read_file (name : string) : M string :=
  λ st, match disk st ≫= (λ d, d !! name) with
        | Some text => (inr text, st)
        | None => (inl (FileNotFoundError ("wallets/" +:+ name)), st)
        end.

(** [open(os.path.join('wallets', name), 'w')]: creates the file, or
    truncates the one that is there. *)
Definition open_w (name : string) : M unit :=
  λ st, match disk st with
        | Some d => (inr (), set_disk (Some (<[name := EmptyString]> d)) st)
        | None => (inl (FileNotFoundError ("wallets/" +:+ name)), st)
        end.

(** [f.write(chunk)] on the file opened under [name].  Every chunk is
    journalled as a write of its own; buffering can only merge some of
    them. *)
Definition fwrite (name chunk : string) : M unit :=
  λ st, match disk st with
        | Some d => (inr (), set_disk (Some (alter (λ text, text +:+ chunk) name d)) st)
        | None => (inr (), st)
        end.

Definition print (line : string) : M unit := modify (add_stdout line).

(** [secrets.token_hex(n)] *)
Definition secrets_token_hex (n : nat) : M string :=
  λ st, (inr (token_hex env n (draws st)), add_draw st).

(** a request to the node or to the explorer, answered by [answer] *)
Definition call {A} (r : Request) (answer : list Request → Exn + A) : M A :=
  λ st, (answer (requests st), add_request r st).

(** [int(v)] *)
Definition py_int (v : pyval) : Exn + Z :=
  match v with
  | PInt z => inr z
  | PBool b => inr (if b then 1 else 0)
  | PStr s => int_of_str env s
  | _ => inl (TypeError ("int() argument must be a string, a bytes-like object or a real number, not '"
                         +:+ type_name v +:+ "'"))
  end.

(** ["0x" + v] *)
Definition concat_0x (v : pyval) : Exn + string :=
  match v with
  | PStr s => inr ("0x" +:+ s)
  | _ => inl (TypeError ("can only concatenate str (not " +:+ dquote +:+ type_name v
                         +:+ dquote +:+ ") to str"))
  end.

(** *** Methods *)

(** the body of the [for] loop of [_load_existing_wallets] *)
Definition load_body (filename : string) : M unit :=
  if endswith filename ".json" then
    try_except
      (text ← read_file filename;
       wallet_data ← lift (json_loads env text);
       address ← lift (py_getitem wallet_data "address");
       setitem_accounts address wallet_data)
      (λ e, print ("Error loading wallet " +:+ filename +:+ ": " +:+ exn_str e))
  else ret ().

Definition _load_existing_wallets : M unit :=
  present ← path_exists;
  if negb present then ret ()
  else
    names ← os_listdir;
    for_each names load_body.

Definition __init__ (net : string) : M unit :=
  modify (set_network net);;
  lift (lookup_network net);;
  modify (set_accounts ∅);;
  makedirs;;
  _load_existing_wallets.

Definition wallet_record (address private_key : string) : pyval :=
  PDict [ ("address", PStr address);
          ("private_key", PStr private_key);
          ("public_key", PStr (keccak_text_hex env address)) ].

Definition create_wallet : M pyval :=
  private_key ← secrets_token_hex 32;
  address ← lift (from_key env private_key);
  let wallet_data := wallet_record address private_key in
  let wallet_path := address +:+ ".json" in
  open_w wallet_path;;
  for_each (json_dump_chunks env wallet_data) (fwrite wallet_path);;
  setitem_accounts (PStr address) wallet_data;;
  ret wallet_data.

Definition request_airdrop (address : string) : M pyval :=
  if negb (is_address env address) then raise (ValueError "Invalid address")
  else
    net ← get_network;
    cfg ← lift (lookup_network net);
    let faucet_url := faucet cfg in
    ret (PDict [ ("status", PStr "success");
                 ("message", PStr ("Please visit " +:+ faucet_url
                                   +:+ " to request tokens for address: " +:+ address));
                 ("network", PStr net) ]).

Definition send_transaction (from_address to_address : string) (amount : Q) : M string :=
  accs ← get_accounts;
  match accs !! KStr from_address with
  | None => raise (ValueError "Sender address not found in wallet")
  | Some record =>
      private_key ← lift (py_getitem record "private_key");
      nonce ← call (RpcGetTransactionCount from_address)
                   (λ h, get_transaction_count env h from_address);
      gasp ← call RpcGasPrice (gas_price env);
      value_in_wei ← lift (to_wei_ether env amount);
      chain ← call RpcChainId (chain_id env);
      let transaction := mkTransaction nonce to_address value_in_wei 21000 gasp chain in
      key ← lift (concat_0x private_key);
      signed ← lift (sign_transaction env transaction key);
      tx_hash ← call (RpcSendRawTransaction signed)
                     (λ h, send_raw_transaction env h signed);
      call (RpcWaitForTransactionReceipt tx_hash)
           (λ h, wait_for_transaction_receipt env h tx_hash);;
      ret (to_hex env tx_hash)
  end.

Definition format_transaction (tx : pyval) : M TxSummary :=
  h ← lift (py_getitem tx "hash");
  f ← lift (py_getitem tx "from");
  t ← lift (py_getitem tx "to");
  v ← lift (py_getitem tx "value");
  wei ← lift (py_int v);
  eth ← lift (from_wei_ether env wei);
  g ← lift (py_getitem tx "gasUsed");
  ts ← lift (py_getitem tx "timeStamp");
  secs ← lift (py_int ts);
  stamp ← lift (strftime_fromtimestamp env secs);
  status ← lift (py_getitem tx "txreceipt_status");
  ret (mkTxSummary h f t eth g stamp
                   (if py_eq_str status "1" then "Success" else "Failed")).

Fixpoint format_all (txs : list pyval) : M (list TxSummary) :=
  match txs with
  | [] => ret []
  | tx :: rest =>
      s ← format_transaction tx;
      ss ← format_all rest;
      ret (s :: ss)
  end.

Definition _format_transactions (transactions : pyval) : M (list TxSummary) :=
  txs ← lift (py_iter transactions);
  format_all txs.

Definition history_params (address api_key : string) : list (string * pyval) :=
  [ ("module", PStr "account");
    ("action", PStr "txlist");
    ("address", PStr address);
    ("startblock", PInt 0);
    ("endblock", PInt 99999999);
    ("sort", PStr "desc");
    ("apikey", PStr api_key) ].

Definition get_transaction_history (address : string) : M (list TxSummary) :=
  if negb (is_address env address) then raise (ValueError "Invalid address")
  else
    net ← get_network;
    cfg ← lift (lookup_network net);
    let api_url := explorer cfg in
    let api_key := explorer_key cfg in
    let params := history_params address api_key in
    response ← call (HttpGet api_url params)
                    (λ h, requests_get env h api_url params);
    if bool_decide (status_code response = 200) then
      data ← lift (json_body response);
      status ← lift (py_getitem data "status");
      if py_eq_str status "1" then
        result ← lift (py_getitem data "result");
        _format_transactions result
      else ret []
    else ret [].

End CryptoWallet.

(** ** The loading loop and the file write, read as functions

    What one turn of the loop of [_load_existing_wallets] does with a
    file, and what the [with open(...)] block of [create_wallet] leaves in
    the directory, written as plain functions of the directory.  The
    lemmas of the next part show that the methods compute exactly
    these. *)
Section Readings.
Context (env : Collaborators).

(** the body of the [try]: the key and the value stored for a file,
    or the exception raised on the way *)
Definition load_file (d : Directory) (filename : string) : Exn + (pykey * pyval) :=
  match d !! filename with
  | None => inl (FileNotFoundError ("wallets/" +:+ filename))
  | Some text =>
      match json_loads env text with
      | inl e => inl e
      | inr wallet_data =>
          match py_getitem wallet_data "address" with
          | inl e => inl e
          | inr address =>
              match to_key address with
              | inl e => inl e
              | inr key => inr (key, wallet_data)
              end
          end
      end
  end.

(** the entry a file contributes to the mapping, if any *)
Definition file_record (d : Directory) (filename : string) : option (pykey * pyval) :=
  if endswith filename ".json" then
    match load_file d filename with
    | inr entry => Some entry
    | inl _ => None
    end
  else None.

(** the line printed for a file, if any *)
Definition file_warning (d : Directory) (filename : string) : option string :=
  if endswith filename ".json" then
    match load_file d filename with
    | inr _ => None
    | inl e => Some ("Error loading wallet " +:+ filename +:+ ": " +:+ exn_str e)
    end
  else None.

(** one turn of the loop *)
Definition load_step (d : Directory) (st : State) (filename : string) : State :=
  if endswith filename ".json" then
    match load_file d filename with
    | inr (key, wallet_data) => set_accounts (<[key := wallet_data]> (accounts st)) st
    | inl e => add_stdout ("Error loading wallet " +:+ filename +:+ ": " +:+ exn_str e) st
    end
  else st.

(** the state in which [__init__] enters the loading loop *)
Definition init_entry (net : string) (st : State) : State :=
  (makedirs (set_accounts ∅ (set_network net st))).2.

(** the text [json.dump(v, f, indent=4)] has written once it returns *)
Definition json_dumps (v : pyval) : string :=
  foldl String.append EmptyString (json_dump_chunks env v).

(** the directory after each of the writes of [chunks] to the file
    [name], which holds [text] so far *)
Fixpoint write_trail (d : Directory) (name text : string) (chunks : list string)
  : list (option Directory) :=
  match chunks with
  | [] => []
  | c :: rest => Some (<[name := text +:+ c]> d) :: write_trail d name (text +:+ c) rest
  end.

(** The write of a wallet file would be atomic if every content of the
    directory that an interruption of [create_wallet] can leave behind
    had, under the name of the new wallet, either what was there before
    the call or the complete new text. *)
Definition write_is_atomic (st : State) : Prop :=
  ∀ address trail s,
    from_key env (token_hex env 32 (draws st)) = inr address →
    journal (create_wallet env st).2 = journal st ++ trail →
    s ∈ trail →
    ∃ d', s = Some d'
          ∧ (d' !! (address +:+ ".json") = disk st ≫= (λ d, d !! (address +:+ ".json"))
             ∨ d' !! (address +:+ ".json")
               = Some (json_dumps (wallet_record env address (token_hex env 32 (draws st))))).

(** Every wallet file that loads is named after the address it holds, as
    the files written by [create_wallet] are. *)
Definition named_by_address (d : Directory) : Prop :=
  ∀ n a v, file_record d n = Some (KStr a, v) → n = a +:+ ".json".

End Readings.

(** [m] leaves the wallet store alone: the mapping, the directory and the
    trail of directory contents are the same after as before, whatever
    the outcome. *)
Definition keeps_store {A} (m : M A) : Prop :=
  ∀ st, accounts (m st).2 = accounts st
        ∧ disk (m st).2 = disk st
        ∧ journal (m st).2 = journal st.

(** ** A concrete set of collaborators

    Small stand-ins for the libraries, used to run the methods on
    examples: a JSON codec for the flat objects of string fields that
    [create_wallet] writes, a key derivation that keeps the first forty
    digits of the key, a node and an explorer with fixed answers. *)
Module Demo.

Definition hex_digit (i : nat) : ascii :=
  nth (i mod 16) (String.list_ascii_of_string "0123456789abcdef") "0"%char.

Fixpoint hex_pairs (n : nat) (c1 c2 : ascii) : string :=
  match n with
  | O => EmptyString
  | S n' => String c1 (String c2 (hex_pairs n' c1 c2))
  end.

Definition random_hex (n i : nat) : string :=
  hex_pairs n (hex_digit i) (hex_digit (i + 10)).

Definition valid_address (s : string) : bool :=
  String.prefix "0x" s && bool_decide (String.length s = 42%nat).

Definition derive_address (k : string) : Exn + string :=
  if bool_decide (String.length k = 64%nat)
  then inr ("0x" +:+ String.substring 0 40 k)
  else inl (ValueError "The private key must be exactly 32 bytes long").

Definition quoted (s : string) : string := dquote +:+ s +:+ dquote.

Definition newline : string := String (Ascii.ascii_of_nat 10) EmptyString.

Definition dump_value (v : pyval) : string :=
  match v with
  | PStr s => quoted s
  | PBool true => "true"
  | PBool false => "false"
  | PInt z => pretty z
  | _ => "null"
  end.

Fixpoint dump_members (fields : list (string * pyval)) : list string :=
  match fields with
  | [] => []
  | [(k, v)] => [quoted k; ": "; dump_value v]
  | (k, v) :: rest =>
      [quoted k; ": "; dump_value v; "," +:+ newline +:+ "    "] ++ dump_members rest
  end.

Definition dump_chunks (v : pyval) : list string :=
  match v with
  | PDict [] => ["{}"]
  | PDict fields => ["{"; newline +:+ "    "] ++ dump_members fields ++ [newline; "}"]
  | _ => [dump_value v]
  end.

Definition is_dquote (c : ascii) : bool := bool_decide (c = Ascii.ascii_of_nat 34).

Fixpoint skip_ws (l : list ascii) : list ascii :=
  match l with
  | c :: rest => if Ascii.is_space c then skip_ws rest else l
  | [] => []
  end.

(** the characters up to the closing quote; escapes are not handled *)
Fixpoint read_string (l : list ascii) : option (string * list ascii) :=
  match l with
  | [] => None
  | c :: rest =>
      if is_dquote c then Some (EmptyString, rest)
      else if bool_decide (c = Ascii.ascii_of_nat 92) then None
      else '(s, rest') ← read_string rest; Some (String c s, rest')
  end.

Definition read_quoted (l : list ascii) : option (string * list ascii) :=
  match skip_ws l with
  | c :: rest => if is_dquote c then read_string rest else None
  | [] => None
  end.

Fixpoint parse_members (fuel : nat) (l : list ascii) : option (list (string * pyval)) :=
  match fuel with
  | O => None
  | S fuel' =>
      '(k, l1) ← read_quoted l;
      match skip_ws l1 with
      | ":"%char :: l2 =>
          '(v, l3) ← read_quoted l2;
          match skip_ws l3 with
          | ","%char :: l4 => rest ← parse_members fuel' l4; Some ((k, PStr v) :: rest)
          | "}"%char :: l4 => match skip_ws l4 with
                              | [] => Some [(k, PStr v)]
                              | _ => None
                              end
          | _ => None
          end
      | _ => None
      end
  end.

Definition loads (text : string) : Exn + pyval :=
  match skip_ws (String.list_ascii_of_string text) with
  | "{"%char :: l =>
      match parse_members (String.length text) l with
      | Some fields => inr (PDict fields)
      | None => inl (OtherError "JSONDecodeError" "Expecting property name enclosed in double quotes")
      end
  | _ => inl (OtherError "JSONDecodeError" "Expecting value")
  end.

Definition ls (d : Directory) : list string := (map_to_list d).*1.

Lemma ls_perm (d : Directory) : ls d ≡ₚ (map_to_list d).*1.
Proof. reflexivity. Qed.

Lemma random_hex_length (n i : nat) : String.length (random_hex n i) = (2 * n)%nat.
Proof.
  unfold random_hex. generalize (hex_digit i), (hex_digit (i + 10)).
  intros c1 c2. induction n as [|n IH]; simpl; [done | rewrite IH; lia].
Qed.

Definition env_with
    (http : list Request → string → list (string * pyval) → Exn + Response)
  : Collaborators := {|
  INFURA_API_KEY := "infura-key";
  ETHERSCAN_API_KEY := "etherscan-key";
  is_address := valid_address;
  from_key := derive_address;
  keccak_text_hex := λ a, "keccak:" +:+ a;
  to_wei_ether := λ q, inr (Qnum q * 1000000000000000000 / Z.pos (Qden q));
  from_wei_ether := λ z, inr (z # 1000000000000000000);
  to_hex := λ h, "0x" +:+ h;
  sign_transaction := λ tx key, inr ("signed:" +:+ tx_to tx);
  int_of_str := λ s, inl (ValueError ("invalid literal for int() with base 10: '" +:+ s +:+ "'"));
  strftime_fromtimestamp := λ _, inr "1970-01-01 00:00:00";
  json_loads := loads;
  json_dump_chunks := dump_chunks;
  token_hex := random_hex;
  listdir := ls;
  get_transaction_count := λ _ _, inr 7;
  gas_price := λ _, inr 1000000000;
  chain_id := λ _, inr 11155111;
  send_raw_transaction := λ _ raw, inr "f00d";
  wait_for_transaction_receipt := λ _ _, inr PNone;
  requests_get := http;
  listdir_perm := ls_perm;
  token_hex_length := random_hex_length
|}.

(** an explorer that answers 200 with status "0": no transactions found *)
Definition env : Collaborators :=
  env_with (λ _ _ _, inr (mkResponse 200 (inr (PDict [("status", PStr "0")])))).

(** no route to the explorer: [requests.get] raises *)
Definition offline : Collaborators :=
  env_with (λ _ _ _, inl (OtherError "ConnectionError" "Max retries exceeded")).

(** a fresh [CryptoWallet] over an empty directory *)
Definition booted : State := mkState "sepolia" ∅ (Some ∅) [Some ∅] [] [] 0.

Definition address_a : string := "0x0a0a0a0a0a0a0a0a0a0a0a0a0a0a0a0a0a0a0a0a".
Definition key_a : string := random_hex 32 0.
Definition record_a : pyval := wallet_record env address_a key_a.
Definition text_a : string := foldl String.append EmptyString (dump_chunks record_a).

(** a store that holds a first wallet *)
Definition stored : State :=
  mkState "sepolia" {[ KStr address_a := record_a ]}
          (Some {[ address_a +:+ ".json" := text_a ]}) [] [] [] 1.

(** the same store, with a random source about to repeat its first draw *)
Definition replay : State :=
  mkState "sepolia" {[ KStr address_a := record_a ]}
          (Some {[ address_a +:+ ".json" := text_a ]}) [] [] [] 0.

Definition address_b : string := "0x1b1b1b1b1b1b1b1b1b1b1b1b1b1b1b1b1b1b1b1b".
Definition record_b : pyval := wallet_record env address_b (random_hex 32 1).

(** a process that starts over the directory [d] *)
Definition process (d : option Directory) : State := mkState EmptyString ∅ d [] [] [] 0.

(** a directory with a wallet file, a damaged one and a stray text file *)
Definition cluttered : Directory :=
  {[ address_a +:+ ".json" := text_a;
     "broken.json" := "{ not json";
     "notes.txt" := "hello" ]}.

(** a wallet file and a copy of it under another name, edited to hold
    another private key; the copy is listed after the original *)
Definition record_copy : pyval :=
  PDict [ ("address", PStr address_a);
          ("private_key", PStr (random_hex 32 5));
          ("public_key", PStr "edited") ].

Definition shadowed : Directory :=
  {[ address_a +:+ ".json" := text_a;
     "Paper.json" := foldl String.append EmptyString (dump_chunks record_copy) ]}.



End Demo.

(** ** The formatting of the history, read as a function *)

Definition and_then {A B} (r : Exn + A) (k : A → Exn + B) : Exn + B :=
  match r with
  | inl e => inl e
  | inr a => k a
  end.

(** [f] on each element in turn, up to the first exception *)
Fixpoint collect {A B} (f : A → Exn + B) (xs : list A) : Exn + list B :=
  match xs with
  | [] => inr []
  | x :: rest =>
      and_then (f x) (λ y, and_then (collect f rest) (λ ys, inr (y :: ys)))
  end.

(** the dict [_format_transactions] appends for one transaction, or the
    exception its construction raises *)
Definition summarise (env : Collaborators) (tx : pyval) : Exn + TxSummary :=
  and_then (py_getitem tx "hash") (λ h,
  and_then (py_getitem tx "from") (λ f,
  and_then (py_getitem tx "to") (λ t,
  and_then (py_getitem tx "value") (λ v,
  and_then (py_int env v) (λ wei,
  and_then (from_wei_ether env wei) (λ eth,
  and_then (py_getitem tx "gasUsed") (λ g,
  and_then (py_getitem tx "timeStamp") (λ ts,
  and_then (py_int env ts) (λ secs,
  and_then (strftime_fromtimestamp env secs) (λ stamp,
  and_then (py_getitem tx "txreceipt_status") (λ status,
  inr (mkTxSummary h f t eth g stamp
                   (if py_eq_str status "1" then "Success" else "Failed"))))))))))))).

(** ** The start-up check, the transaction analysis and the commands *)

Definition LF : string := String (Ascii.ascii_of_nat 10) EmptyString.

(** *** Start-up: the module-level check of the environment *)

Definition required_env_vars : list string := ["INFURA_API_KEY"; "ETHERSCAN_API_KEY"].

(** [not os.getenv(var)]: the variable is unset, or set to the empty
    string *)
Definition unset (value : option string) : bool :=
  match value with
  | None => true
  | Some s => bool_decide (s = EmptyString)
  end.

Definition missing_vars (getenv : string → option string) : list string :=
  filter (λ var, unset (getenv var) = true) required_env_vars.

(** The check run when the module is loaded: [Some 1] is [sys.exit(1)],
    [None] is falling through to the rest of the module. *)
Definition check_environment (getenv : string → option string) : M (option Z) :=
  let missing := missing_vars getenv in
  match missing with
  | [] => mret None
  | _ =>
      print "Error: Missing required environment variables:";;
      print (String.concat LF missing);;
      print (LF +:+ "Please create a .env file with the following variables:");;
      print "INFURA_API_KEY=your_infura_key_here";;
      print "ETHERSCAN_API_KEY=your_etherscan_key_here";;
      mret (Some 1)
  end.

(** *** Python helpers of the commands *)

(** How f-strings show the values that are not covered by the value
    model: the [repr] of a list or dict, and the [str] of the number
    [web3.from_wei] returns. *)
Record Rendering : Type := mkRendering {
  repr_container : pyval → string;
  number_str : Q → string
}.

(** [str(v)] *)
Definition py_str (show : Rendering) (v : pyval) : string :=
  match v with
  | PNone => "None"
  | PBool true => "True"
  | PBool false => "False"
  | PInt z => pretty z
  | PStr s => s
  | PList _ | PDict _ => repr_container show v
  end.

(** [v == 1] *)
Definition py_eq_one (v : pyval) : bool :=
  match v with
  | PInt z => bool_decide (z = 1)
  | PBool b => b
  | _ => false
  end.

(** [len(v)] *)
Definition py_len (v : pyval) : Exn + Z :=
  match v with
  | PList items => inr (Z.of_nat (length items))
  | PDict fields => inr (Z.of_nat (length fields))
  | PStr s => inr (Z.of_nat (String.length s))
  | _ => inl (TypeError ("object of type '" +:+ type_name v +:+ "' has no len()"))
  end.

Definition is_lower (c : ascii) : bool :=
  (97 <=? nat_of_ascii c)%nat && (nat_of_ascii c <=? 122)%nat.
Definition is_upper (c : ascii) : bool :=
  (65 <=? nat_of_ascii c)%nat && (nat_of_ascii c <=? 90)%nat.
Definition to_upper (c : ascii) : ascii :=
  if is_lower c then ascii_of_nat (nat_of_ascii c - 32) else c.
Definition to_lower (c : ascii) : ascii :=
  if is_upper c then ascii_of_nat (nat_of_ascii c + 32) else c.

(** [s.replace('_', ' ')] *)
Fixpoint replace_underscores (s : string) : string :=
  match s with
  | EmptyString => EmptyString
  | String c rest =>
      String (if bool_decide (c = "_"%char) then " "%char else c) (replace_underscores rest)
  end.

(** [s.title()], for ASCII text: a letter that follows a letter is
    lowered, any other letter is raised *)
Fixpoint title_from (previous_is_cased : bool) (s : string) : string :=
  match s with
  | EmptyString => EmptyString
  | String c rest =>
      if is_lower c || is_upper c then
        String (if previous_is_cased then to_lower c else to_upper c) (title_from true rest)
      else String c (title_from false rest)
  end.

Definition title (s : string) : string := title_from false s.

(** *** Transaction analysis *)

(** The two lookups of [analyze_transaction]; they are recorded apart
    from the requests of the other methods. *)
Inductive Lookup : Type :=
| LookupTransaction (tx_hash : string)
| LookupReceipt (tx_hash : string).

(** What [analyze_transaction] asks of web3: the two lookups, which see
    the requests and the lookups made before theirs, and the conversions
    [web3.from_wei(value, unit)] and [web3.to_hex(value)]. *)
Record NodeLookups : Type := mkNodeLookups {
  get_transaction : list Request → list Lookup → string → Exn + pyval;
  get_transaction_receipt : list Request → list Lookup → string → Exn + pyval;
  from_wei : pyval → string → Exn + Q;
  to_hex_value : pyval → Exn + string
}.

(** The dict [analyze_transaction] returns: its 'transaction' part and
    its 'receipt' part, whose keys are fixed. *)
Record Analysis : Type := mkAnalysis {
  a_hash : string;
  a_from : pyval;
  a_to : pyval;
  a_value : Q;
  a_gas_price : Q;
  a_gas_limit : pyval;
  a_nonce : pyval;
  r_status : string;
  r_gas_used : pyval;
  r_block_number : pyval;
  r_block_hash : string;
  r_logs : Z
}.

Section Analysis.
Context (node : NodeLookups).

(** the [return {...}] of the [try] block *)
Definition build_analysis (tx_hash : string) (tx receipt : pyval) : Exn + Analysis :=
  and_then (py_getitem tx "from") (λ f,
  and_then (py_getitem tx "to") (λ t,
  and_then (py_getitem tx "value") (λ v,
  and_then (from_wei node v "ether") (λ eth,
  and_then (py_getitem tx "gasPrice") (λ gp,
  and_then (from_wei node gp "gwei") (λ gwei,
  and_then (py_getitem tx "gas") (λ gas,
  and_then (py_getitem tx "nonce") (λ nonce,
  and_then (py_getitem receipt "status") (λ status,
  and_then (py_getitem receipt "gasUsed") (λ used,
  and_then (py_getitem receipt "blockNumber") (λ number,
  and_then (py_getitem receipt "blockHash") (λ bh,
  and_then (to_hex_value node bh) (λ block_hash,
  and_then (py_getitem receipt "logs") (λ logs,
  and_then (py_len logs) (λ count,
  inr (mkAnalysis tx_hash f t eth gwei gas nonce
                  (if py_eq_one status then "Success" else "Failed")
                  used number block_hash count)))))))))))))))).

(** the body of the [try] block: the result or the exception, and the
    lookups made *)
Definition analyze_try (tx_hash : string) (st : State) (sent : list Lookup)
  : (Exn + Analysis) * list Lookup :=
  match get_transaction node (requests st) sent tx_hash with
  | inl e => (inl e, sent ++ [LookupTransaction tx_hash])
  | inr tx =>
      let sent1 := sent ++ [LookupTransaction tx_hash] in
      match get_transaction_receipt node (requests st) sent1 tx_hash with
      | inl e => (inl e, sent1 ++ [LookupReceipt tx_hash])
      | inr receipt => (build_analysis tx_hash tx receipt, sent1 ++ [LookupReceipt tx_hash])
      end
  end.

Definition analyze_transaction (tx_hash : string) (st : State) (sent : list Lookup)
  : (Exn + Analysis) * list Lookup :=
  match analyze_try tx_hash st sent with
  | (inr analysis, sent') => (inr analysis, sent')
  | (inl e, sent') =>
      (inl (ValueError ("Error analyzing transaction: " +:+ exn_str e)), sent')
  end.

End Analysis.

(** *** The commands *)

Section Commands.
Context (env : Collaborators) (show : Rendering).

(** [click.echo(message)] *)
Definition echo (message : string) : M unit := print message.

Definition create : M unit :=
  try_except
    (__init__ env "sepolia";;
     new_wallet ← create_wallet env;
     echo (LF +:+ "Created new wallet:");;
     address ← lift (py_getitem new_wallet "address");
     echo ("Address: " +:+ py_str show address);;
     private_key ← lift (py_getitem new_wallet "private_key");
     echo ("Private key: " +:+ py_str show private_key);;
     public_key ← lift (py_getitem new_wallet "public_key");
     echo ("Public key: " +:+ py_str show public_key))
    (λ e, echo ("Error creating wallet: " +:+ exn_str e)).

Definition airdrop (address : string) : M unit :=
  try_except
    (__init__ env "sepolia";;
     result ← request_airdrop env address;
     message ← lift (py_getitem result "message");
     echo (LF +:+ "Airdrop request: " +:+ py_str show message))
    (λ e, echo ("Error requesting airdrop: " +:+ exn_str e)).

Definition send (from_address to_address : string) (amount : Q) : M unit :=
  try_except
    (__init__ env "sepolia";;
     tx_hash ← send_transaction env from_address to_address amount;
     echo (LF +:+ "Transaction sent successfully!");;
     echo ("Transaction hash: " +:+ tx_hash))
    (λ e, echo ("Error sending transaction: " +:+ exn_str e)).

(** the lines printed for one transaction of the history *)
Definition echo_summary (tx : TxSummary) : M unit :=
  echo (String.concat EmptyString (replicate 80 "-"));;
  echo ("Hash:      " +:+ py_str show (s_hash tx));;
  echo ("From:      " +:+ py_str show (s_from tx));;
  echo ("To:        " +:+ py_str show (s_to tx));;
  echo ("Value:     " +:+ number_str show (s_value tx) +:+ " ETH");;
  echo ("Status:    " +:+ s_status tx);;
  echo ("Timestamp: " +:+ s_timestamp tx).

Definition history (address : string) : M unit :=
  try_except
    (__init__ env "sepolia";;
     transactions ← get_transaction_history env address;
     match transactions with
     | [] => echo "No transactions found"
     | _ =>
         echo (LF +:+ "Transaction History:");;
         for_each transactions echo_summary
     end)
    (λ e, echo ("Error fetching history: " +:+ exn_str e)).

(** the items of [analysis['transaction']] and of [analysis['receipt']],
    each value as the f-string shows it *)
Definition transaction_items (a : Analysis) : list (string * string) :=
  [ ("hash", a_hash a);
    ("from", py_str show (a_from a));
    ("to", py_str show (a_to a));
    ("value", number_str show (a_value a));
    ("gas_price", number_str show (a_gas_price a));
    ("gas_limit", py_str show (a_gas_limit a));
    ("nonce", py_str show (a_nonce a)) ].

Definition receipt_items (a : Analysis) : list (string * string) :=
  [ ("status", r_status a);
    ("gas_used", py_str show (r_gas_used a));
    ("block_number", py_str show (r_block_number a));
    ("block_hash", r_block_hash a);
    ("logs", pretty (r_logs a)) ].

Definition echo_item (item : string * string) : M unit :=
  echo (title (replace_underscores item.1) +:+ ": " +:+ item.2).

Definition analyze (node : NodeLookups) (tx_hash : string)
    (st : State) (sent : list Lookup) : (Exn + unit) * State * list Lookup :=
  let failed e st' := echo ("Error analyzing transaction: " +:+ exn_str e) st' in
  match __init__ env "sepolia" st with
  | (inl e, st1) => (failed e st1, sent)
  | (inr _, st1) =>
      match analyze_transaction node tx_hash st1 sent with
      | (inl e, sent') => (failed e st1, sent')
      | (inr analysis, sent') =>
          (try_except
             (echo (LF +:+ "Transaction Analysis:");;
              echo (LF +:+ "Transaction Details:");;
              for_each (transaction_items analysis) echo_item;;
              echo (LF +:+ "Receipt Details:");;
              for_each (receipt_items analysis) echo_item)
             failed st1, sent')
      end
  end.

End Commands.

(** ** Further stand-ins, for the analysis and the commands *)
Module DemoNode.

Definition show : Rendering :=
  mkRendering (λ _, "[...]")
              (λ q, pretty (Qnum q) +:+ "/" +:+ pretty (Z.pos (Qden q))).

Definition mined_transaction : pyval :=
  PDict [ ("from", PStr Demo.address_a); ("to", PStr Demo.address_b);
          ("value", PInt 5); ("gasPrice", PInt 2); ("gas", PInt 21000);
          ("nonce", PInt 7) ].

Definition mined_receipt : pyval :=
  PDict [ ("status", PInt 1); ("gasUsed", PInt 21000); ("blockNumber", PInt 42);
          ("blockHash", PStr "beef"); ("logs", PList []) ].

Definition wei (v : pyval) (unit : string) : Exn + Q :=
  match v with
  | PInt z => inr (z # 1)
  | _ => inl (TypeError "Unsupported type")
  end.

Definition hex (v : pyval) : Exn + string :=
  match v with
  | PStr s => inr ("0x" +:+ s)
  | _ => inl (TypeError "Unsupported type")
  end.

(** a node that knows the transaction *)
Definition node : NodeLookups :=
  mkNodeLookups (λ _ _ _, inr mined_transaction) (λ _ _ _, inr mined_receipt) wei hex.

(** a node that does not *)
Definition blind : NodeLookups :=
  mkNodeLookups (λ _ _ h, inl (OtherError "TransactionNotFound"
                                          ("Transaction with hash: '" +:+ h +:+ "' not found.")))
                (λ _ _ _, inr mined_receipt) wei hex.

(** an environment in which the two variables are set, and one in which
    the second is set to the empty string *)
Definition getenv_set (var : string) : option string :=
  if bool_decide (var = "INFURA_API_KEY") then Some "infura-key"
  else if bool_decide (var = "ETHERSCAN_API_KEY") then Some "etherscan-key"
  else None.

Definition getenv_blank (var : string) : option string :=
  if bool_decide (var = "INFURA_API_KEY") then Some "infura-key"
  else if bool_decide (var = "ETHERSCAN_API_KEY") then Some EmptyString
  else None.

(** a node that accepts the transaction and then gives no receipt in time *)
Definition stalled : Collaborators := {|
  INFURA_API_KEY := INFURA_API_KEY Demo.env;
  ETHERSCAN_API_KEY := ETHERSCAN_API_KEY Demo.env;
  is_address := is_address Demo.env;
  from_key := from_key Demo.env;
  keccak_text_hex := keccak_text_hex Demo.env;
  to_wei_ether := to_wei_ether Demo.env;
  from_wei_ether := from_wei_ether Demo.env;
  to_hex := to_hex Demo.env;
  sign_transaction := sign_transaction Demo.env;
  int_of_str := int_of_str Demo.env;
  strftime_fromtimestamp := strftime_fromtimestamp Demo.env;
  json_loads := json_loads Demo.env;
  json_dump_chunks := json_dump_chunks Demo.env;
  token_hex := token_hex Demo.env;
  listdir := listdir Demo.env;
  get_transaction_count := get_transaction_count Demo.env;
  gas_price := gas_price Demo.env;
  chain_id := chain_id Demo.env;
  send_raw_transaction := send_raw_transaction Demo.env;
  wait_for_transaction_receipt :=
    λ _ h, inl (OtherError "TimeExhausted" ("Transaction " +:+ h +:+ " is not in the chain"));
  requests_get := requests_get Demo.env;
  listdir_perm := listdir_perm Demo.env;
  token_hex_length := token_hex_length Demo.env
|}.

Definition entry (h : string) (status : pyval) : pyval :=
  PDict [ ("hash", PStr h); ("from", PStr Demo.address_a); ("to", PStr Demo.address_b);
          ("value", PInt 1000000000000000000); ("gasUsed", PStr "21000");
          ("timeStamp", PInt 0); ("txreceipt_status", status) ].

Definition listing : pyval :=
  PDict [ ("status", PStr "1"); ("message", PStr "OK");
          ("result", PList [entry "0xbb" (PStr "1"); entry "0xaa" (PStr "0")]) ].

(** an explorer that lists two transactions *)
Definition busy : Collaborators :=
  Demo.env_with (λ _ _ _, inr (mkResponse 200 (inr listing))).

(** an explorer that answers 200 with a page that is not JSON *)
Definition garbled : Collaborators :=
  Demo.env_with (λ _ _ _, inr (mkResponse 200 (inl (OtherError "JSONDecodeError"
                                                                "Expecting value")))).

(** an explorer that is down for maintenance *)
Definition down : Collaborators :=
  Demo.env_with (λ _ _ _, inr (mkResponse 503 (inl (OtherError "JSONDecodeError"
                                                                "Expecting value")))).

(** a store whose only record has lost its private key *)
Definition keyless : State :=
  mkState "sepolia" {[ KStr Demo.address_a := PDict [("address", PStr Demo.address_a)] ]}
          (Some ∅) [] [] [] 0.

End DemoNode.

(** * Properties *)

(** ** Stepping through the monad *)

Section Stepping.
Context {A B : Type}.

Lemma bind_inr (m : M A) (k : A → M B) st a st' :
  m st = (inr a, st') → (m ≫= k) st = k a st'.
Proof. intros H. unfold mbind, M_bind, bind. by rewrite H. Qed.

Lemma bind_inl (m : M A) (k : A → M B) st e st' :
  m st = (inl e, st') → (m ≫= k) st = (inl e, st').
Proof. intros H. unfold mbind, M_bind, bind. by rewrite H. Qed.

Lemma bind_lift (r : Exn + A) (k : A → M B) st :
  (lift r ≫= k) st = match r with inr a => k a st | inl e => (inl e, st) end.
Proof. by destruct r. Qed.

Lemma bind_modify (f : State → State) (k : () → M B) st :
  (modify f ≫= k) st = k () (f st).
Proof. reflexivity. Qed.

Lemma bind_call (r : Request) (answer : list Request → Exn + A) (k : A → M B) st :
  (call r answer ≫= k) st =
  match answer (requests st) with
  | inr a => k a (add_request r st)
  | inl e => (inl e, add_request r st)
  end.
Proof. unfold mbind, M_bind, bind, call. by destruct (answer (requests st)). Qed.

End Stepping.

(** ** Frames: what a computation leaves alone *)

Lemma keeps_store_ret {A} (a : A) : keeps_store (mret a).
Proof. by intros st. Qed.

Lemma keeps_store_raise {A} (e : Exn) : keeps_store (raise (A:=A) e).
Proof. by intros st. Qed.

Lemma keeps_store_lift {A} (r : Exn + A) : keeps_store (lift r).
Proof. by intros st. Qed.

Lemma keeps_store_call {A} r (answer : list Request → Exn + A) :
  keeps_store (call r answer).
Proof. by intros st. Qed.

Lemma keeps_store_get_accounts : keeps_store get_accounts.
Proof. by intros st. Qed.

Lemma keeps_store_get_network : keeps_store get_network.
Proof. by intros st. Qed.

Lemma keeps_store_bind {A B} (m : M A) (k : A → M B) :
  keeps_store m → (∀ a, keeps_store (k a)) → keeps_store (m ≫= k).
Proof.
  intros Hm Hk st. unfold mbind, M_bind, bind.
  specialize (Hm st). destruct (m st) as [[e|a] st1]; simpl in *; [done|].
  specialize (Hk a st1). destruct (k a st1) as [r st2]; simpl in *.
  intuition congruence.
Qed.

Create HintDb frame.
#[local] Hint Resolve keeps_store_ret keeps_store_raise keeps_store_lift keeps_store_call
  keeps_store_get_accounts keeps_store_get_network : frame.

Ltac frame :=
  repeat first
    [ apply keeps_store_bind; [| intros ?]
    | progress eauto with frame
    | match goal with |- keeps_store (match ?x with _ => _ end) => destruct x end
    | match goal with |- keeps_store (if ?b then _ else _) => destruct b end ].

Lemma keeps_store_send_transaction env from_address to_address amount :
  keeps_store (send_transaction env from_address to_address amount).
Proof. unfold send_transaction. frame. Qed.

Lemma keeps_store_format_all env txs : keeps_store (format_all env txs).
Proof.
  induction txs as [|tx txs IH]; simpl; [by intros st|].
  unfold format_transaction. frame.
Qed.

Lemma keeps_store_get_transaction_history env address :
  keeps_store (get_transaction_history env address).
Proof.
  unfold get_transaction_history, _format_transactions. frame.
  all: apply keeps_store_format_all.
Qed.

(** ** Transaction submission *)

(** C1. When [from_address] is not a key of [self.accounts],
    [send_transaction] raises [ValueError("Sender address not found in
    wallet")] and the whole state is as before: no request was sent to the
    node, and the mapping and the files of the store are untouched. *)
Theorem send_transaction_unknown_sender env from_address to_address amount st :
  accounts st !! KStr from_address = None →
  send_transaction env from_address to_address amount st
  = (inl (ValueError "Sender address not found in wallet"), st).
Proof.
  intros Hnone. unfold send_transaction.
  erewrite bind_inr by reflexivity. by rewrite Hnone.
Qed.

(** C8. Whatever its arguments and whatever its outcome,
    [send_transaction] leaves the mapping [self.accounts] and the
    directory of wallet files as they were, and issues no write to the
    directory at all. *)
Theorem send_transaction_frame env from_address to_address amount st :
  let st' := (send_transaction env from_address to_address amount st).2 in
  accounts st' = accounts st ∧ disk st' = disk st ∧ journal st' = journal st.
Proof. apply keeps_store_send_transaction. Qed.

(** C2. For an address the validator rejects, [get_transaction_history]
    raises [ValueError("Invalid address")] before anything else happens.
    [send_transaction] does not validate [to_address]: given a stored
    sender with a private key, it goes on to query the node for the
    sender's nonce, so the requests sent grow by at least that one. *)
Theorem send_transaction_unchecked_recipient env from_address to_address amount st record pk :
  is_address env to_address = false →
  accounts st !! KStr from_address = Some record →
  py_getitem record "private_key" = inr pk →
  get_transaction_history env to_address st = (inl (ValueError "Invalid address"), st)
  ∧ ∃ rest,
      requests (send_transaction env from_address to_address amount st).2
      = requests st ++ RpcGetTransactionCount from_address :: rest.
Proof.
  intros Hbad Hrec Hpk. split.
  - unfold get_transaction_history. by rewrite Hbad.
  - unfold send_transaction.
    erewrite bind_inr by reflexivity. rewrite Hrec, bind_lift, Hpk.
    repeat first
      [ rewrite bind_call | rewrite bind_lift
      | match goal with |- context [match ?x with inl _ => _ | inr _ => _ end] =>
          destruct x
        end ];
      simpl; rewrite <- ?app_assoc; eexists; reflexivity.
Qed.

(** ** Airdrop *)

(** C9. [request_airdrop] raises [ValueError("Invalid address")] for an
    address the validator rejects; for a valid address, on a wallet whose
    network is a configured one, it returns the dict with status
    "success", a message that embeds the faucet URL of that network and
    the address, and the network name.  In both cases the state is as
    before: no request is sent and the store is untouched. *)
Theorem request_airdrop_validates env address st cfg :
  lookup_network env (network st) = inr cfg →
  (is_address env address = false →
   request_airdrop env address st = (inl (ValueError "Invalid address"), st))
  ∧ (is_address env address = true →
     request_airdrop env address st
     = (inr (PDict [ ("status", PStr "success");
                     ("message", PStr ("Please visit " +:+ faucet cfg
                                       +:+ " to request tokens for address: " +:+ address));
                     ("network", PStr (network st)) ]), st)).
Proof.
  intros Hcfg. unfold request_airdrop. split; intros ->; [done|].
  cbn [negb].
  erewrite bind_inr by reflexivity. by rewrite bind_lift, Hcfg.
Qed.

(** ** Transaction history *)

(** C4 (as the code has it).  For a valid address on a configured
    network, [get_transaction_history] sends exactly one request, the
    explorer query.  It returns the empty list when the HTTP status is
    not 200, and when the status is 200 and the body is a JSON object
    whose "status" entry is not the string "1".  When [requests.get]
    itself raises, the exception reaches the caller. *)
Theorem history_empty_on_explorer_failure env address st cfg :
  is_address env address = true →
  lookup_network env (network st) = inr cfg →
  let params := history_params address (explorer_key cfg) in
  let query := HttpGet (explorer cfg) params in
  let st' := add_request query st in
  match requests_get env (requests st) (explorer cfg) params with
  | inl e => get_transaction_history env address st = (inl e, st')
  | inr response =>
      (status_code response ≠ 200 →
       get_transaction_history env address st = (inr [], st'))
      ∧ (∀ data status,
           status_code response = 200 →
           json_body response = inr data →
           py_getitem data "status" = inr status →
           py_eq_str status "1" = false →
           get_transaction_history env address st = (inr [], st'))
  end.
Proof.
  intros Hvalid Hcfg params query st'. unfold get_transaction_history.
  rewrite Hvalid. cbn [negb].
  erewrite bind_inr by reflexivity. rewrite bind_lift, Hcfg, bind_call.
  fold params. fold query. fold st'.
  destruct (requests_get env (requests st) (explorer cfg) params) as [e|response]; [done|].
  split.
  - intros Hstatus. by rewrite bool_decide_eq_false_2.
  - intros data status Hstatus Hbody Hget Hne.
    rewrite bool_decide_eq_true_2 by done.
    by rewrite bind_lift, Hbody, bind_lift, Hget, Hne.
Qed.

(** ** The loading loop *)

Section Loading.
Context (env : Collaborators).

Lemma load_step_disk d st filename : disk (load_step env d st filename) = disk st.
Proof.
  unfold load_step. destruct (endswith _ _); [|done].
  by destruct (load_file _ _ _) as [?|[??]].
Qed.

Lemma load_body_step d st filename :
  disk st = Some d →
  load_body env filename st = (inr (), load_step env d st filename).
Proof.
  intros Hd. unfold load_body, load_step, load_file.
  destruct (endswith filename ".json"); [|done].
  unfold try_except, read_file, setitem_accounts, mbind, M_bind, bind, lift, print, modify.
  rewrite Hd. simpl.
  destruct (d !! filename) as [text|]; [|done].
  destruct (json_loads env text) as [e|data]; [done|].
  destruct (py_getitem data "address") as [e|address]; [done|].
  by destruct (to_key address) as [e|key].
Qed.

Lemma for_each_load d names st :
  disk st = Some d →
  for_each names (load_body env) st = (inr (), foldl (load_step env d) st names).
Proof.
  revert st. induction names as [|name names IH]; intros st Hd; [done|].
  simpl. erewrite bind_inr by (by apply load_body_step).
  apply IH. by rewrite load_step_disk.
Qed.

Lemma _load_existing_wallets_run d st :
  disk st = Some d →
  _load_existing_wallets env st = (inr (), foldl (load_step env d) st (listdir env d)).
Proof.
  intros Hd. unfold _load_existing_wallets.
  erewrite bind_inr by reflexivity.
  rewrite Hd, bool_decide_eq_true_2 by eauto. cbn [negb].
  erewrite bind_inr by (unfold os_listdir; by rewrite Hd).
  by apply for_each_load.
Qed.

(** Everything but the mapping and the printed lines is left alone. *)
Lemma load_fold_frame d names st :
  let st' := foldl (load_step env d) st names in
  network st' = network st ∧ disk st' = disk st ∧ journal st' = journal st
  ∧ requests st' = requests st ∧ draws st' = draws st.
Proof.
  revert st. induction names as [|name names IH]; intros st; [done|].
  simpl. destruct (IH (load_step env d st name)) as (-> & -> & -> & -> & ->).
  unfold load_step. destruct (endswith _ _); [|done].
  by destruct (load_file _ _ _) as [?|[??]].
Qed.

Lemma load_step_accounts d st name :
  accounts (load_step env d st name)
  = match file_record env d name with
    | Some (key, wallet_data) => <[key := wallet_data]> (accounts st)
    | None => accounts st
    end.
Proof.
  unfold load_step, file_record. destruct (endswith _ _); [|done].
  by destruct (load_file _ _ _) as [?|[??]].
Qed.

Lemma load_step_stdout d st name :
  stdout (load_step env d st name) = stdout st ++ option_list (file_warning env d name).
Proof.
  unfold load_step, file_warning. destruct (endswith _ _); [|by rewrite app_nil_r].
  destruct (load_file _ _ _) as [?|[??]]; [done|]. by rewrite app_nil_r.
Qed.

Lemma load_fold_stdout d names st :
  stdout (foldl (load_step env d) st names) = stdout st ++ omap (file_warning env d) names.
Proof.
  revert st. induction names as [|name names IH]; intros st; simpl.
  - by rewrite app_nil_r.
  - rewrite IH, load_step_stdout, <- app_assoc. f_equal.
    by destruct (file_warning env d name).
Qed.

(** A file that loads is exposed under its key, unless a file listed
    after it loads under the same key. *)
Lemma load_fold_exposes d st l1 name l2 key wallet_data :
  file_record env d name = Some (key, wallet_data) →
  (∀ n v, n ∈ l2 → file_record env d n ≠ Some (key, v)) →
  accounts (foldl (load_step env d) st (l1 ++ name :: l2)) !! key = Some wallet_data.
Proof.
  intros Hrec. rewrite foldl_app. simpl.
  set (st1 := load_step env d (foldl _ st l1) name).
  assert (Hst1 : accounts st1 !! key = Some wallet_data).
  { subst st1. rewrite load_step_accounts, Hrec. apply lookup_insert_eq. }
  clearbody st1. revert st1 Hst1.
  induction l2 as [|n l2 IH]; intros st1 Hst1 Hlater; [done|].
  simpl. apply IH.
  - rewrite load_step_accounts.
    destruct (file_record env d n) as [[k v]|] eqn:Hn; [|done].
    rewrite lookup_insert_ne; [done|].
    intros ->. eapply Hlater; [|done]. left.
  - intros n' v' Hin. apply Hlater. by right.
Qed.

(** Conversely, an entry of the mapping was there before the loop, or
    is the entry of the last file that loads under its key. *)
Lemma load_fold_exposed_inv d names st key wallet_data :
  accounts (foldl (load_step env d) st names) !! key = Some wallet_data →
  (accounts st !! key = Some wallet_data
   ∧ ∀ n v, n ∈ names → file_record env d n ≠ Some (key, v))
  ∨ ∃ l1 name l2,
      names = l1 ++ name :: l2
      ∧ file_record env d name = Some (key, wallet_data)
      ∧ ∀ n v, n ∈ l2 → file_record env d n ≠ Some (key, v).
Proof.
  induction names as [|x names IH] using rev_ind; intros Hlook.
  - left. split; [done|]. intros n v Hin. by apply elem_of_nil in Hin.
  - rewrite foldl_app in Hlook. simpl in Hlook.
    rewrite load_step_accounts in Hlook.
    destruct (file_record env d x) as [[k v]|] eqn:Hx.
    + destruct (decide (k = key)) as [->|Hne].
      * rewrite lookup_insert_eq in Hlook. injection Hlook as ->.
        right. exists names, x, []. split_and!; [done..|].
        intros n v' Hin. by apply elem_of_nil in Hin.
      * rewrite lookup_insert_ne in Hlook by done.
        destruct (IH Hlook) as [[H0 Hnone]|(l1 & name & l2 & -> & Hrec & Hlater)].
        -- left. split; [done|]. intros n v' [Hin| ->%list_elem_of_singleton]%elem_of_app.
           ++ by apply Hnone.
           ++ rewrite Hx. congruence.
        -- right. exists l1, name, (l2 ++ [x]). rewrite <- app_assoc. split_and!; [done..|].
           intros n v' [Hin| ->%list_elem_of_singleton]%elem_of_app.
           ++ by apply Hlater.
           ++ rewrite Hx. congruence.
    + destruct (IH Hlook) as [[H0 Hnone]|(l1 & name & l2 & -> & Hrec & Hlater)].
      * left. split; [done|]. intros n v' [Hin| ->%list_elem_of_singleton]%elem_of_app.
        -- by apply Hnone.
        -- by rewrite Hx.
      * right. exists l1, name, (l2 ++ [x]). rewrite <- app_assoc. split_and!; [done..|].
        intros n v' [Hin| ->%list_elem_of_singleton]%elem_of_app.
        -- by apply Hlater.
        -- by rewrite Hx.
Qed.

(** Names that do not end in '.json' can be struck from the listing. *)
Lemma load_fold_filter d names st :
  foldl (load_step env d) st names
  = foldl (load_step env d) st (filter (λ n, endswith n ".json" = true) names).
Proof.
  revert st. induction names as [|name names IH]; intros st; [done|].
  rewrite filter_cons. simpl. case_decide as Hjson.
  - simpl. apply IH.
  - rewrite IH. f_equal. unfold load_step.
    by destruct (endswith name ".json").
Qed.

End Loading.

(** ** Strings *)

Lemma append_cons (c : ascii) (s t : string) : String c s +:+ t = String c (s +:+ t).
Proof. reflexivity. Qed.

Lemma append_nil_r (s : string) : s +:+ EmptyString = s.
Proof. induction s as [|c s IH]; [done|]. by rewrite append_cons, IH. Qed.

Lemma append_assoc (s t u : string) : (s +:+ t) +:+ u = s +:+ (t +:+ u).
Proof. induction s as [|c s IH]; [done|]. by rewrite !append_cons, IH. Qed.

Lemma length_append (s t : string) :
  String.length (s +:+ t) = (String.length s + String.length t)%nat.
Proof. induction s as [|c s IH]; [done|]. rewrite append_cons. simpl. by rewrite IH. Qed.

Lemma substring_whole (s : string) : String.substring 0 (String.length s) s = s.
Proof. induction s as [|c s IH]; simpl; [done | by rewrite IH]. Qed.

Lemma substring_skip (s t : string) (m : nat) :
  String.substring (String.length s) m (s +:+ t) = String.substring 0 m t.
Proof. induction s as [|c s IH]; [done|]. rewrite append_cons. simpl. apply IH. Qed.

Lemma endswith_append (s suffix : string) : endswith (s +:+ suffix) suffix = true.
Proof.
  unfold endswith. rewrite length_append.
  apply andb_true_intro. split.
  - apply Nat.leb_le. lia.
  - apply bool_decide_eq_true.
    replace (String.length s + String.length suffix - String.length suffix)%nat
      with (String.length s) by lia.
    by rewrite substring_skip, substring_whole.
Qed.

Lemma foldl_append (text : string) (chunks : list string) :
  foldl String.append text chunks = text +:+ foldl String.append EmptyString chunks.
Proof.
  revert text. induction chunks as [|c chunks IH]; intros text; simpl.
  - by rewrite append_nil_r.
  - rewrite IH, (IH (EmptyString +:+ c)).
    change (EmptyString +:+ c) with c. by rewrite append_assoc.
Qed.

(** ** Writing a wallet file *)

Section Writing.
Context (env : Collaborators).

Lemma for_each_fwrite d name text chunks st :
  disk st = Some (<[name := text]> d) →
  for_each chunks (fwrite name) st
  = (inr (),
     mkState (network st) (accounts st)
             (Some (<[name := foldl String.append text chunks]> d))
             (journal st ++ write_trail d name text chunks)
             (stdout st) (requests st) (draws st)).
Proof.
  revert text st. induction chunks as [|c chunks IH]; intros text st Hd.
  - destruct st; simpl in *. by rewrite Hd, app_nil_r.
  - simpl. erewrite bind_inr; last first.
    { unfold fwrite. rewrite Hd, alter_insert_eq. reflexivity. }
    erewrite IH by reflexivity. simpl. by rewrite <- app_assoc.
Qed.

(** every content journalled by the writes holds a prefix of the final
    text under [name] and is [d] elsewhere *)
Lemma write_trail_prefix d name text chunks s :
  s ∈ write_trail d name text chunks →
  ∃ p q, s = Some (<[name := p]> d) ∧ foldl String.append text chunks = p +:+ q.
Proof.
  revert text. induction chunks as [|c chunks IH]; intros text Hin; simpl in *.
  - by apply elem_of_nil in Hin.
  - apply elem_of_cons in Hin as [->|Hin].
    + eexists _, _. split; [done|]. apply foldl_append.
    + by apply IH.
Qed.

Lemma create_wallet_run d st address :
  let private_key := token_hex env 32 (draws st) in
  let wallet_data := wallet_record env address private_key in
  let name := address +:+ ".json" in
  disk st = Some d →
  from_key env private_key = inr address →
  create_wallet env st
  = (inr wallet_data,
     mkState (network st) (<[KStr address := wallet_data]> (accounts st))
             (Some (<[name := json_dumps env wallet_data]> d))
             (journal st ++ Some (<[name := EmptyString]> d)
                :: write_trail d name EmptyString (json_dump_chunks env wallet_data))
             (stdout st) (requests st) (S (draws st))).
Proof.
  intros private_key wallet_data name Hd Hkey. unfold create_wallet.
  erewrite bind_inr by reflexivity.
  rewrite bind_lift. fold private_key. rewrite Hkey.
  fold wallet_data. fold name.
  erewrite bind_inr; last first.
  { unfold open_w. simpl. rewrite Hd. reflexivity. }
  erewrite bind_inr; last first.
  { apply (for_each_fwrite d name EmptyString). reflexivity. }
  simpl. unfold json_dumps. by rewrite <- app_assoc.
Qed.

End Writing.

(** ** Initialization *)

Section Initialization.
Context (env : Collaborators).

Lemma init_entry_disk net st : disk (init_entry net st) = Some (default ∅ (disk st)).
Proof.
  unfold init_entry, makedirs. simpl.
  destruct (disk st) eqn:Hd; simpl; by rewrite ?Hd.
Qed.

Lemma init_entry_fields net st :
  accounts (init_entry net st) = ∅
  ∧ stdout (init_entry net st) = stdout st
  ∧ requests (init_entry net st) = requests st
  ∧ network (init_entry net st) = net.
Proof.
  unfold init_entry, makedirs. simpl.
  destruct (disk st) eqn:Hd; simpl; by rewrite ?Hd.
Qed.

Lemma init_run net cfg st :
  lookup_network env net = inr cfg →
  __init__ env net st
  = (inr (), foldl (load_step env (default ∅ (disk st))) (init_entry net st)
                   (listdir env (default ∅ (disk st)))).
Proof.
  intros Hcfg. unfold __init__.
  rewrite bind_modify, bind_lift, Hcfg, bind_modify.
  erewrite bind_inr; last first.
  { instantiate (1 := init_entry net st). instantiate (1 := ()).
    unfold init_entry, makedirs. simpl. by destruct (disk st). }
  apply _load_existing_wallets_run, init_entry_disk.
Qed.



Lemma file_record_insert_ne d name text n :
  n ≠ name → file_record env (<[name := text]> d) n = file_record env d n.
Proof.
  intros Hne. unfold file_record, load_file. by rewrite lookup_insert_ne.
Qed.

(** The files the class itself writes keep the directory named by
    address, and in such a directory no other file carries a given
    address. *)
Lemma named_by_address_empty : named_by_address env ∅.
Proof.
  intros n a v. unfold file_record, load_file. rewrite lookup_empty.
  by destruct (endswith n ".json").
Qed.

Lemma named_by_address_fresh d a :
  named_by_address env d →
  ∀ n v, n ≠ a +:+ ".json" → file_record env d n ≠ Some (KStr a, v).
Proof. intros Hnamed n v Hne Hrec. by apply Hnamed in Hrec. Qed.

Lemma create_wallet_keeps_named_by_address d st address :
  let wallet_data := wallet_record env address (token_hex env 32 (draws st)) in
  disk st = Some d →
  from_key env (token_hex env 32 (draws st)) = inr address →
  json_loads env (json_dumps env wallet_data) = inr wallet_data →
  named_by_address env d →
  ∃ d', disk (create_wallet env st).2 = Some d' ∧ named_by_address env d'.
Proof.
  intros wallet_data Hd Hkey Hjson Hnamed.
  rewrite (create_wallet_run env d st address Hd Hkey).
  eexists. split; [reflexivity|].
  intros n a v. destruct (decide (n = address +:+ ".json")) as [->|Hne].
  - unfold file_record. rewrite endswith_append.
    unfold load_file. rewrite lookup_insert_eq. fold wallet_data. rewrite Hjson.
    simpl. by intros [= <- _].
  - rewrite file_record_insert_ne by done. apply Hnamed.
Qed.

End Initialization.

(** ** The wallet store *)

(** C7. [create_wallet] draws the private key with [secrets.token_hex(32)]
    (sixty-four hex digits, thirty-two random bytes), derives the address
    from that key and the public key as the hash of that address, returns
    the record of the three, writes the serialized record to the file
    named [address + '.json'] of the directory, and stores the record in
    [self.accounts] under the address.  No request is sent. *)
Theorem create_wallet_generates_and_persists env st d address :
  let private_key := token_hex env 32 (draws st) in
  let wallet_data :=
    PDict [ ("address", PStr address);
            ("private_key", PStr private_key);
            ("public_key", PStr (keccak_text_hex env address)) ] in
  disk st = Some d →
  from_key env private_key = inr address →
  ∃ st',
    create_wallet env st = (inr wallet_data, st')
    ∧ String.length private_key = 64%nat
    ∧ disk st' = Some (<[address +:+ ".json" := json_dumps env wallet_data]> d)
    ∧ accounts st' = <[KStr address := wallet_data]> (accounts st)
    ∧ draws st' = S (draws st)
    ∧ requests st' = requests st.
Proof.
  intros private_key wallet_data Hd Hkey.
  eexists. split; [by apply create_wallet_run|].
  split; [apply token_hex_length|]. done.
Qed.

(** C3 (as the code has it).  [create_wallet] writes the file in place:
    opening it for writing leaves it empty, whatever it held, and the
    text is then appended piece by piece.  Each content of the directory
    that an interruption can leave behind differs from the directory
    before the call only in that file, which holds a prefix of the
    serialized record; once the call returns, the file holds all of
    it. *)
Theorem create_wallet_writes_in_place env st d address :
  let private_key := token_hex env 32 (draws st) in
  let name := address +:+ ".json" in
  let text := json_dumps env (wallet_record env address private_key) in
  disk st = Some d →
  from_key env private_key = inr address →
  ∃ trail,
    journal (create_wallet env st).2
    = journal st ++ Some (<[name := EmptyString]> d) :: trail
    ∧ (∀ s, s ∈ trail → ∃ p q, s = Some (<[name := p]> d) ∧ text = p +:+ q)
    ∧ disk (create_wallet env st).2 = Some (<[name := text]> d).
Proof.
  intros private_key name text Hd Hkey.
  rewrite (create_wallet_run env d st address Hd Hkey). simpl.
  eexists. split; [done|]. split; [|done].
  intros s Hin. by apply write_trail_prefix in Hin.
Qed.


(** C6. Constructing a [CryptoWallet] on a configured network never
    raises on account of a wallet file.  Each '.json' file that cannot be
    loaded adds one line "Error loading wallet ..." to the output, in
    listing order, and nothing else; the directory is left as it was.
    The mapping then holds exactly the records of the files that load: a
    key has a value if and only if some listed file loads with that key
    and that value and no file listed after it loads with the same
    key. *)
Theorem init_skips_unparseable_files env net cfg st :
  lookup_network env net = inr cfg →
  let d := default ∅ (disk st) in
  ∃ st',
    __init__ env net st = (inr (), st')
    ∧ disk st' = Some d
    ∧ stdout st' = stdout st ++ omap (file_warning env d) (listdir env d)
    ∧ ∀ key wallet_data,
        accounts st' !! key = Some wallet_data
        ↔ ∃ l1 name l2,
            listdir env d = l1 ++ name :: l2
            ∧ file_record env d name = Some (key, wallet_data)
            ∧ ∀ n v, n ∈ l2 → file_record env d n ≠ Some (key, v).
Proof.
  intros Hcfg d. eexists. split; [by eapply init_run|]. fold d.
  destruct (load_fold_frame env d (listdir env d) (init_entry net st))
    as (_ & Hdisk & _).
  destruct (init_entry_fields net st) as (Hempty & Hout & _).
  split; [by rewrite Hdisk, init_entry_disk|].
  split; [by rewrite load_fold_stdout, Hout|].
  intros key wallet_data. split.
  - intros Hlook. apply load_fold_exposed_inv in Hlook as [[Hinit _]|Hfile]; [|done].
    by rewrite Hempty, lookup_empty in Hinit.
  - intros (l1 & name & l2 & -> & Hrec & Hlater). by apply load_fold_exposes.
Qed.

(** C10. [_load_existing_wallets] never raises and treats the listing as
    if the names that do not end in '.json' were not there: they change
    neither the mapping nor the output.  A file that loads is stored
    under the key taken from its 'address' entry, whatever its name,
    provided no file listed after it loads under the same key; so of two
    files that load under one key, it is the one listed later whose
    record the mapping holds. *)
Theorem load_keys_by_internal_address env st d :
  disk st = Some d →
  let json_names := filter (λ n, endswith n ".json" = true) (listdir env d) in
  ∃ st',
    _load_existing_wallets env st = (inr (), st')
    ∧ st' = foldl (load_step env d) st json_names
    ∧ stdout st' = stdout st ++ omap (file_warning env d) json_names
    ∧ (∀ l1 name l2 key wallet_data,
         listdir env d = l1 ++ name :: l2 →
         endswith name ".json" = true →
         load_file env d name = inr (key, wallet_data) →
         (∀ n v, n ∈ l2 → file_record env d n ≠ Some (key, v)) →
         accounts st' !! key = Some wallet_data)
    ∧ (∀ l1 name1 l2 name2 l3 key record1 record2,
         listdir env d = l1 ++ name1 :: l2 ++ name2 :: l3 →
         file_record env d name1 = Some (key, record1) →
         file_record env d name2 = Some (key, record2) →
         (∀ n v, n ∈ l3 → file_record env d n ≠ Some (key, v)) →
         accounts st' !! key = Some record2).
Proof.
  intros Hd json_names. eexists. split; [by apply _load_existing_wallets_run|].
  split; [apply load_fold_filter|].
  split; [by rewrite load_fold_filter, load_fold_stdout|].
  split.
  - intros l1 name l2 key wallet_data -> Hjson Hload Hlater.
    apply load_fold_exposes; [|done].
    unfold file_record. by rewrite Hjson, Hload.
  - intros l1 name1 l2 name2 l3 key record1 record2 Hsplit _ Hrec2 Hlater.
    rewrite Hsplit.
    replace (l1 ++ name1 :: l2 ++ name2 :: l3) with ((l1 ++ name1 :: l2) ++ name2 :: l3)
      by (by rewrite <- app_assoc).
    by apply load_fold_exposes.
Qed.

(** * The methods on examples *)

Lemma send_transaction_unknown_sender_witness :
  accounts Demo.booted !! KStr Demo.address_a = None
  ∧ send_transaction Demo.env Demo.address_a "0x1b1b1b1b1b1b1b1b1b1b1b1b1b1b1b1b1b1b1b1b"
                     (1 # 1) Demo.booted
    = (inl (ValueError "Sender address not found in wallet"), Demo.booted).
Proof.
  assert (H : accounts Demo.booted !! KStr Demo.address_a = None) by reflexivity.
  split; [exact H|].
  exact (send_transaction_unknown_sender Demo.env _ _ _ _ H).
Defined.

Lemma send_transaction_unchecked_recipient_witness :
  is_address Demo.env "0x123" = false
  ∧ accounts Demo.stored !! KStr Demo.address_a = Some Demo.record_a
  ∧ py_getitem Demo.record_a "private_key" = inr (PStr Demo.key_a)
  ∧ get_transaction_history Demo.env "0x123" Demo.stored
    = (inl (ValueError "Invalid address"), Demo.stored)
  ∧ ∃ rest,
      requests (send_transaction Demo.env Demo.address_a "0x123" (1 # 1) Demo.stored).2
      = requests Demo.stored ++ RpcGetTransactionCount Demo.address_a :: rest.
Proof.
  assert (H1 : is_address Demo.env "0x123" = false) by reflexivity.
  assert (H2 : accounts Demo.stored !! KStr Demo.address_a = Some Demo.record_a)
    by apply lookup_singleton_eq.
  assert (H3 : py_getitem Demo.record_a "private_key" = inr (PStr Demo.key_a))
    by reflexivity.
  split_and!; [exact H1 | exact H2 | exact H3 | |];
    apply (send_transaction_unchecked_recipient
             Demo.env Demo.address_a "0x123" (1 # 1) Demo.stored _ _ H1 H2 H3).
Defined.

(** The run behind C2: with the stored wallet as sender and the rejected
    string "0x123" as recipient, [send_transaction] sends five requests,
    the signed transaction among them, and returns a transaction hash. *)
Example send_transaction_invalid_recipient_run :
  is_address Demo.env "0x123" = false
  ∧ (send_transaction Demo.env Demo.address_a "0x123" (1 # 1) Demo.stored).1 = inr "0xf00d"
  ∧ requests (send_transaction Demo.env Demo.address_a "0x123" (1 # 1) Demo.stored).2
    = [ RpcGetTransactionCount Demo.address_a; RpcGasPrice; RpcChainId;
        RpcSendRawTransaction "signed:0x123"; RpcWaitForTransactionReceipt "f00d" ].
Proof. split_and!; vm_compute; reflexivity. Qed.

Lemma request_airdrop_validates_witness :
  lookup_network Demo.env (network Demo.booted)
  = inr (mkNetworkConfig "https://sepolia.infura.io/v3/infura-key"
                         "https://api-sepolia.etherscan.io/api"
                         "etherscan-key" "https://sepoliafaucet.com/")
  ∧ request_airdrop Demo.env "0x123" Demo.booted
    = (inl (ValueError "Invalid address"), Demo.booted)
  ∧ request_airdrop Demo.env Demo.address_a Demo.booted
    = (inr (PDict [ ("status", PStr "success");
                    ("message",
                     PStr "Please visit https://sepoliafaucet.com/ to request tokens for address: 0x0a0a0a0a0a0a0a0a0a0a0a0a0a0a0a0a0a0a0a0a");
                    ("network", PStr "sepolia") ]), Demo.booted).
Proof.
  assert (H : lookup_network Demo.env (network Demo.booted)
              = inr (mkNetworkConfig "https://sepolia.infura.io/v3/infura-key"
                                     "https://api-sepolia.etherscan.io/api"
                                     "etherscan-key" "https://sepoliafaucet.com/"))
    by reflexivity.
  split; [exact H|]. split.
  - apply (request_airdrop_validates Demo.env "0x123" Demo.booted _ H). reflexivity.
  - apply (request_airdrop_validates Demo.env Demo.address_a Demo.booted _ H). reflexivity.
Defined.

(** When the explorer cannot be reached, [requests.get] raises, and so
    does [get_transaction_history]: the result is the exception, not the
    empty list. *)
Lemma history_raises_on_network_failure :
  is_address Demo.offline Demo.address_a = true
  ∧ requests_get Demo.offline (requests Demo.booted)
                 "https://api-sepolia.etherscan.io/api"
                 (history_params Demo.address_a "etherscan-key")
    = inl (OtherError "ConnectionError" "Max retries exceeded")
  ∧ (get_transaction_history Demo.offline Demo.address_a Demo.booted).1
    = inl (OtherError "ConnectionError" "Max retries exceeded")
  ∧ (get_transaction_history Demo.offline Demo.address_a Demo.booted).1 ≠ inr [].
Proof. split_and!; [reflexivity | reflexivity | reflexivity | discriminate]. Qed.

Lemma history_empty_on_explorer_failure_witness :
  is_address Demo.env Demo.address_a = true
  ∧ lookup_network Demo.env (network Demo.booted)
    = inr (mkNetworkConfig "https://sepolia.infura.io/v3/infura-key"
                           "https://api-sepolia.etherscan.io/api"
                           "etherscan-key" "https://sepoliafaucet.com/")
  ∧ get_transaction_history Demo.env Demo.address_a Demo.booted
    = (inr [],
       add_request (HttpGet "https://api-sepolia.etherscan.io/api"
                            (history_params Demo.address_a "etherscan-key"))
                   Demo.booted).
Proof.
  assert (H1 : is_address Demo.env Demo.address_a = true) by reflexivity.
  assert (H2 : lookup_network Demo.env (network Demo.booted)
               = inr (mkNetworkConfig "https://sepolia.infura.io/v3/infura-key"
                                      "https://api-sepolia.etherscan.io/api"
                                      "etherscan-key" "https://sepoliafaucet.com/"))
    by reflexivity.
  split_and!; [exact H1 | exact H2 |].
  pose proof (history_empty_on_explorer_failure Demo.env Demo.address_a Demo.booted _ H1 H2)
    as H.
  simpl in H. destruct H as [_ H].
  apply (H (PDict [("status", PStr "0")]) (PStr "0")); reflexivity.
Defined.

Lemma create_wallet_generates_and_persists_witness :
  disk Demo.booted = Some ∅
  ∧ from_key Demo.env (token_hex Demo.env 32 (draws Demo.booted)) = inr Demo.address_a
  ∧ ∃ st',
      create_wallet Demo.env Demo.booted = (inr Demo.record_a, st')
      ∧ String.length Demo.key_a = 64%nat
      ∧ disk st' = Some (<[Demo.address_a +:+ ".json" := Demo.text_a]> ∅)
      ∧ accounts st' = <[KStr Demo.address_a := Demo.record_a]> ∅
      ∧ draws st' = 1%nat
      ∧ requests st' = [].
Proof.
  assert (H1 : disk Demo.booted = Some ∅) by reflexivity.
  assert (H2 : from_key Demo.env (token_hex Demo.env 32 (draws Demo.booted))
               = inr Demo.address_a) by reflexivity.
  split_and!; [exact H1 | exact H2 |].
  exact (create_wallet_generates_and_persists Demo.env Demo.booted ∅ Demo.address_a H1 H2).
Defined.

(** The write is not atomic.  In a store that holds a wallet file, with
    a random source that yields that wallet's key again, opening the file
    truncates the record that was there; in a fresh store, the new file
    is there and empty before it is complete. *)
Lemma create_wallet_write_not_atomic :
  (disk Demo.replay = Some {[ Demo.address_a +:+ ".json" := Demo.text_a ]}
   ∧ ¬ write_is_atomic Demo.env Demo.replay)
  ∧ ¬ write_is_atomic Demo.env Demo.booted.
Proof.
  assert (Hd : disk Demo.replay = Some {[ Demo.address_a +:+ ".json" := Demo.text_a ]})
    by reflexivity.
  assert (Hkey : from_key Demo.env (token_hex Demo.env 32 0) = inr Demo.address_a)
    by reflexivity.
  split; [split; [exact Hd|] |].
  - intros Hatomic.
    pose proof (create_wallet_run Demo.env _ Demo.replay Demo.address_a Hd Hkey) as Hrun.
    edestruct (Hatomic Demo.address_a) as (d' & Heq & Hcases);
      [exact Hkey | rewrite Hrun; reflexivity | left |].
    injection Heq as <-. rewrite lookup_insert_eq in Hcases.
    destruct Hcases as [H|H]; vm_compute in H; discriminate H.
  - intros Hatomic.
    assert (Hd0 : disk Demo.booted = Some ∅) by reflexivity.
    pose proof (create_wallet_run Demo.env _ Demo.booted Demo.address_a Hd0 Hkey) as Hrun.
    edestruct (Hatomic Demo.address_a) as (d' & Heq & Hcases);
      [exact Hkey | rewrite Hrun; reflexivity | left |].
    injection Heq as <-. rewrite lookup_insert_eq in Hcases.
    destruct Hcases as [H|H]; vm_compute in H; discriminate H.
Qed.

Lemma create_wallet_writes_in_place_witness :
  disk Demo.replay = Some {[ Demo.address_a +:+ ".json" := Demo.text_a ]}
  ∧ from_key Demo.env (token_hex Demo.env 32 (draws Demo.replay)) = inr Demo.address_a
  ∧ ∃ trail,
      journal (create_wallet Demo.env Demo.replay).2
      = journal Demo.replay
        ++ Some (<[Demo.address_a +:+ ".json" := EmptyString]>
                   {[ Demo.address_a +:+ ".json" := Demo.text_a ]}) :: trail
      ∧ (∀ s, s ∈ trail →
           ∃ p q, s = Some (<[Demo.address_a +:+ ".json" := p]>
                              {[ Demo.address_a +:+ ".json" := Demo.text_a ]})
                  ∧ Demo.text_a = p +:+ q)
      ∧ disk (create_wallet Demo.env Demo.replay).2
        = Some (<[Demo.address_a +:+ ".json" := Demo.text_a]>
                  {[ Demo.address_a +:+ ".json" := Demo.text_a ]}).
Proof.
  assert (H1 : disk Demo.replay = Some {[ Demo.address_a +:+ ".json" := Demo.text_a ]})
    by reflexivity.
  assert (H2 : from_key Demo.env (token_hex Demo.env 32 (draws Demo.replay))
               = inr Demo.address_a) by reflexivity.
  split_and!; [exact H1 | exact H2 |].
  exact (create_wallet_writes_in_place Demo.env Demo.replay _ Demo.address_a H1 H2).
Defined.



Lemma init_skips_unparseable_files_witness :
  lookup_network Demo.env "sepolia"
  = inr (mkNetworkConfig "https://sepolia.infura.io/v3/infura-key"
                         "https://api-sepolia.etherscan.io/api"
                         "etherscan-key" "https://sepoliafaucet.com/")
  ∧ ∃ st',
      __init__ Demo.env "sepolia" (Demo.process (Some Demo.cluttered)) = (inr (), st')
      ∧ disk st' = Some Demo.cluttered
      ∧ stdout st'
        = ["Error loading wallet broken.json: Expecting property name enclosed in double quotes"]
      ∧ accounts st' !! KStr Demo.address_a = Some Demo.record_a
      ∧ ∀ key wallet_data,
          accounts st' !! key = Some wallet_data →
          key = KStr Demo.address_a ∧ wallet_data = Demo.record_a.
Proof.
  assert (H : lookup_network Demo.env "sepolia"
              = inr (mkNetworkConfig "https://sepolia.infura.io/v3/infura-key"
                                     "https://api-sepolia.etherscan.io/api"
                                     "etherscan-key" "https://sepoliafaucet.com/"))
    by reflexivity.
  split; [exact H|].
  destruct (init_skips_unparseable_files Demo.env "sepolia" _
              (Demo.process (Some Demo.cluttered)) H)
    as (st' & Hrun & Hdisk & Hout & Hmap).
  assert (Hls : listdir Demo.env Demo.cluttered
                = ["notes.txt"; "broken.json"; Demo.address_a +:+ ".json"])
    by (vm_compute; reflexivity).
  change (default ∅ (disk (Demo.process (Some Demo.cluttered)))) with Demo.cluttered in *.
  rewrite Hls in Hmap.
  exists st'. split_and!; [exact Hrun | exact Hdisk | | |].
  - rewrite Hout. vm_compute. reflexivity.
  - apply Hmap. exists ["notes.txt"; "broken.json"], (Demo.address_a +:+ ".json"), [].
    split_and!; [reflexivity | vm_compute; reflexivity |].
    intros n v Hin. apply elem_of_nil in Hin. destruct Hin.
  - intros key wallet_data (l1 & name & l2 & Hsplit & Hrec & _)%Hmap.
    assert (Hname : name ∈ ["notes.txt"; "broken.json"; Demo.address_a +:+ ".json"]).
    { rewrite Hsplit. apply elem_of_app. right. left. }
    clear Hrun Hdisk Hout Hmap Hsplit.
    repeat (apply elem_of_cons in Hname as [->|Hname]);
      [| | | apply elem_of_nil in Hname; destruct Hname];
      vm_compute in Hrec; [discriminate Hrec | discriminate Hrec |].
    injection Hrec as <- <-. split; reflexivity.
Defined.

Lemma load_keys_by_internal_address_witness :
  disk (Demo.process (Some Demo.shadowed)) = Some Demo.shadowed
  ∧ listdir Demo.env Demo.shadowed = [Demo.address_a +:+ ".json"; "Paper.json"]
  ∧ file_record Demo.env Demo.shadowed (Demo.address_a +:+ ".json")
    = Some (KStr Demo.address_a, Demo.record_a)
  ∧ file_record Demo.env Demo.shadowed "Paper.json"
    = Some (KStr Demo.address_a, Demo.record_copy)
  ∧ accounts (_load_existing_wallets Demo.env (Demo.process (Some Demo.shadowed))).2
    !! KStr Demo.address_a
    = Some Demo.record_copy.
Proof.
  assert (H : disk (Demo.process (Some Demo.shadowed)) = Some Demo.shadowed)
    by reflexivity.
  assert (Hls : listdir Demo.env Demo.shadowed = [Demo.address_a +:+ ".json"; "Paper.json"])
    by (vm_compute; reflexivity).
  assert (Ha : file_record Demo.env Demo.shadowed (Demo.address_a +:+ ".json")
               = Some (KStr Demo.address_a, Demo.record_a)) by (vm_compute; reflexivity).
  assert (Hp : file_record Demo.env Demo.shadowed "Paper.json"
               = Some (KStr Demo.address_a, Demo.record_copy)) by (vm_compute; reflexivity).
  split_and!; [exact H | exact Hls | exact Ha | exact Hp |].
  destruct (load_keys_by_internal_address Demo.env _ Demo.shadowed H)
    as (st' & Hrun & _ & _ & _ & Hlater).
  rewrite Hrun. simpl snd.
  apply (Hlater [] (Demo.address_a +:+ ".json") [] "Paper.json" [] _ Demo.record_a);
    [exact Hls | exact Ha | exact Hp |].
  intros n v Hin. apply elem_of_nil in Hin. destruct Hin.
Defined.

(** * Further properties of the class *)

(** ** Construction *)

Lemma lookup_network_unknown env net :
  net ≠ "sepolia" → net ≠ "goerli" → lookup_network env net = inl (KeyError net).
Proof.
  intros H1 H2. unfold lookup_network, networks. cbn.
  repeat case_decide; simpl in *; congruence.
Qed.

(** X1. A network name other than 'sepolia' and 'goerli' makes the
    constructor raise [KeyError] with that name, before the directory is
    created or read: directory, output and requests are as before. *)
Theorem init_unknown_network env net st :
  net ≠ "sepolia" → net ≠ "goerli" →
  (__init__ env net st).1 = inl (KeyError net)
  ∧ disk (__init__ env net st).2 = disk st
  ∧ journal (__init__ env net st).2 = journal st
  ∧ stdout (__init__ env net st).2 = stdout st
  ∧ requests (__init__ env net st).2 = requests st.
Proof.
  intros H1 H2. unfold __init__.
  rewrite bind_modify, bind_lift, lookup_network_unknown by done. done.
Qed.

Lemma load_fold_accounts env d names st :
  accounts (foldl (load_step env d) st names)
  = foldl (λ acc n, match file_record env d n with
                    | Some (key, wallet_data) => <[key := wallet_data]> acc
                    | None => acc
                    end) (accounts st) names.
Proof.
  revert st. induction names as [|n names IH]; intros st; [done|].
  simpl. by rewrite IH, load_step_accounts.
Qed.

(** X2. Constructing a second [CryptoWallet] over the directory a first
    one was constructed over gives the same mapping, and leaves the
    directory as it is: loading is idempotent. *)
Theorem init_twice_same_mapping env net1 net2 cfg1 cfg2 st :
  lookup_network env net1 = inr cfg1 →
  lookup_network env net2 = inr cfg2 →
  let st1 := (__init__ env net1 st).2 in
  let st2 := (__init__ env net2 st1).2 in
  (__init__ env net2 st1).1 = inr ()
  ∧ accounts st2 = accounts st1
  ∧ disk st2 = disk st1.
Proof.
  intros Hcfg1 Hcfg2 st1 st2.
  set (d := default ∅ (disk st)).
  assert (Hst1 : st1 = foldl (load_step env d) (init_entry net1 st) (listdir env d)).
  { subst st1 d. by rewrite (init_run env net1 cfg1 st Hcfg1). }
  assert (Hd1 : disk st1 = Some d).
  { rewrite Hst1.
    destruct (load_fold_frame env d (listdir env d) (init_entry net1 st))
      as (_ & -> & _).
    apply init_entry_disk. }
  assert (Hrun2 : __init__ env net2 st1
                  = (inr (), foldl (load_step env d) (init_entry net2 st1) (listdir env d))).
  { rewrite (init_run env net2 cfg2 st1 Hcfg2). by rewrite Hd1. }
  subst st2. rewrite Hrun2. simpl. split; [done|]. split.
  - destruct (init_entry_fields net1 st) as (E1 & _).
    destruct (init_entry_fields net2 st1) as (E2 & _).
    rewrite load_fold_accounts, E2, Hst1, load_fold_accounts, E1. done.
  - destruct (load_fold_frame env d (listdir env d) (init_entry net2 st1))
      as (_ & -> & _).
    by rewrite init_entry_disk, Hd1.
Qed.

(** ** Wallet generation *)

(** X3. When the key derivation raises, or when the directory is not
    there, [create_wallet] raises the same exception and has only
    consumed a random draw: no file is written and the mapping is as
    before. *)
Theorem create_wallet_failure_leaves_store env st :
  (∀ e, from_key env (token_hex env 32 (draws st)) = inl e →
        create_wallet env st = (inl e, add_draw st))
  ∧ (∀ address, from_key env (token_hex env 32 (draws st)) = inr address →
                disk st = None →
                create_wallet env st
                = (inl (FileNotFoundError ("wallets/" +:+ address +:+ ".json")),
                   add_draw st)).
Proof.
  split.
  - intros e Hkey. unfold create_wallet.
    erewrite bind_inr by reflexivity. by rewrite bind_lift, Hkey.
  - intros address Hkey Hd. unfold create_wallet.
    erewrite bind_inr by reflexivity. rewrite bind_lift, Hkey.
    erewrite bind_inl; [reflexivity|].
    unfold open_w. simpl. by rewrite Hd.
Qed.

Lemma append_inj_r (s1 s2 t : string) : s1 +:+ t = s2 +:+ t → s1 = s2.
Proof.
  revert s2. induction s1 as [|c s1 IH]; intros [|c2 s2] Heq; [done| | |].
  - exfalso. apply (f_equal String.length) in Heq.
    rewrite !length_append in Heq. simpl in Heq. lia.
  - exfalso. apply (f_equal String.length) in Heq.
    rewrite !length_append in Heq. simpl in Heq. lia.
  - rewrite !append_cons in Heq. injection Heq as -> Heq. f_equal. by apply IH.
Qed.

(** X4. Two successive [create_wallet] calls that derive different
    addresses leave both wallets in the mapping and both files in the
    directory, and change no other entry and no other file. *)
Theorem create_wallet_twice_coexist env st d a1 a2 :
  let k1 := token_hex env 32 (draws st) in
  let k2 := token_hex env 32 (S (draws st)) in
  disk st = Some d →
  from_key env k1 = inr a1 →
  from_key env k2 = inr a2 →
  a1 ≠ a2 →
  ∃ st2 d2,
    (create_wallet env ≫= λ _, create_wallet env) st = (inr (wallet_record env a2 k2), st2)
    ∧ accounts st2 !! KStr a1 = Some (wallet_record env a1 k1)
    ∧ accounts st2 !! KStr a2 = Some (wallet_record env a2 k2)
    ∧ (∀ k, k ≠ KStr a1 → k ≠ KStr a2 → accounts st2 !! k = accounts st !! k)
    ∧ disk st2 = Some d2
    ∧ d2 !! (a1 +:+ ".json") = Some (json_dumps env (wallet_record env a1 k1))
    ∧ d2 !! (a2 +:+ ".json") = Some (json_dumps env (wallet_record env a2 k2))
    ∧ (∀ n, n ≠ a1 +:+ ".json" → n ≠ a2 +:+ ".json" → d2 !! n = d !! n).
Proof.
  intros k1 k2 Hd Hk1 Hk2 Hne.
  assert (Hnames : a1 +:+ ".json" ≠ a2 +:+ ".json")
    by (intros Heq; by apply append_inj_r in Heq).
  pose proof (create_wallet_run env d st a1 Hd Hk1) as Hrun1.
  pose proof (create_wallet_run env (<[a1 +:+ ".json" := json_dumps env (wallet_record env a1 k1)]> d)
                (create_wallet env st).2 a2) as Hrun2.
  rewrite Hrun1 in Hrun2. simpl in Hrun2. specialize (Hrun2 eq_refl Hk2).
  destruct ((create_wallet env ≫= λ _, create_wallet env) st) as [r st2] eqn:Hboth.
  erewrite bind_inr in Hboth by exact Hrun1.
  rewrite Hrun2 in Hboth. injection Hboth as <- <-.
  eexists _, _. split; [reflexivity|].
  simpl. split_and!.
  - rewrite lookup_insert_ne by congruence. apply lookup_insert_eq.
  - apply lookup_insert_eq.
  - intros k Hk1' Hk2'. by rewrite !lookup_insert_ne.
  - done.
  - rewrite lookup_insert_ne by done. apply lookup_insert_eq.
  - apply lookup_insert_eq.
  - intros n Hn1 Hn2. by rewrite !lookup_insert_ne.
Qed.

(** ** Transaction submission, step by step *)

(** X5. A stored sender whose record has no 'private_key' entry (or is
    not a dict) makes [send_transaction] raise before any request is
    sent; the state is as before. *)
Theorem send_transaction_missing_private_key env from_address to_address amount st record e :
  accounts st !! KStr from_address = Some record →
  py_getitem record "private_key" = inl e →
  send_transaction env from_address to_address amount st = (inl e, st).
Proof.
  intros Hrec Hpk. unfold send_transaction.
  erewrite bind_inr by reflexivity. by rewrite Hrec, bind_lift, Hpk.
Qed.

Section Submission.
Context (env : Collaborators) (st : State).
Context (from_address to_address : string) (amount : Q).
Context (record : pyval) (pk : string) (nonce gasp wei chain : Z) (signed tx_hash : string).

Hypothesis Hsender : accounts st !! KStr from_address = Some record.
Hypothesis Hpk : py_getitem record "private_key" = inr (PStr pk).
Hypothesis Hnonce :
  get_transaction_count env (requests st) from_address = inr nonce.
Hypothesis Hgas :
  gas_price env (requests st ++ [RpcGetTransactionCount from_address]) = inr gasp.
Hypothesis Hwei : to_wei_ether env amount = inr wei.
Hypothesis Hchain :
  chain_id env (requests st ++ [RpcGetTransactionCount from_address; RpcGasPrice])
  = inr chain.
Hypothesis Hsign :
  sign_transaction env (mkTransaction nonce to_address wei 21000 gasp chain) ("0x" +:+ pk)
  = inr signed.
Hypothesis Hsend :
  send_raw_transaction env
    (requests st ++ [RpcGetTransactionCount from_address; RpcGasPrice; RpcChainId]) signed
  = inr tx_hash.

(** the requests of a submission that got as far as waiting *)
Definition submission_requests : list Request :=
  [ RpcGetTransactionCount from_address; RpcGasPrice; RpcChainId;
    RpcSendRawTransaction signed; RpcWaitForTransactionReceipt tx_hash ].

Definition after_submission : State :=
  mkState (network st) (accounts st) (disk st) (journal st) (stdout st)
          (requests st ++ submission_requests) (draws st).

Lemma send_transaction_to_receipt :
  send_transaction env from_address to_address amount st
  = (match wait_for_transaction_receipt env
             (requests st ++ [RpcGetTransactionCount from_address; RpcGasPrice;
                              RpcChainId; RpcSendRawTransaction signed]) tx_hash with
     | inr _ => inr (to_hex env tx_hash)
     | inl e => inl e
     end, after_submission).
Proof.
  unfold send_transaction.
  erewrite bind_inr by reflexivity. rewrite Hsender, bind_lift, Hpk.
  rewrite bind_call, Hnonce, bind_call. simpl requests. rewrite Hgas.
  rewrite bind_lift, Hwei, bind_call. simpl requests.
  rewrite <- app_assoc. simpl app. rewrite Hchain.
  rewrite bind_lift. simpl concat_0x. cbv iota. rewrite bind_lift, Hsign.
  rewrite bind_call. simpl requests. rewrite <- !app_assoc. simpl app. rewrite Hsend.
  rewrite bind_call. simpl requests. rewrite <- !app_assoc. simpl app.
  unfold after_submission, submission_requests.
  destruct (wait_for_transaction_receipt _ _ _);
    unfold add_request; simpl; rewrite <- !app_assoc; reflexivity.
Qed.

(** X6. When every collaborator answers, [send_transaction] sends
    exactly five requests, in this order: the sender's nonce, the gas
    price, the chain id, the signed transaction, the wait for its
    receipt.  The transaction it signs carries the nonce, gas price and
    chain id the node gave, the recipient and the amount converted to
    wei, and the gas limit 21000; the key it signs with is '0x' followed
    by the stored private key.  It returns the hex form of the hash the
    node gave, and leaves everything but the list of requests alone. *)
Theorem send_transaction_success receipt :
  wait_for_transaction_receipt env
    (requests st ++ [RpcGetTransactionCount from_address; RpcGasPrice; RpcChainId;
                     RpcSendRawTransaction signed]) tx_hash
  = inr receipt →
  send_transaction env from_address to_address amount st
  = (inr (to_hex env tx_hash), after_submission).
Proof. intros Hwait. by rewrite send_transaction_to_receipt, Hwait. Qed.

(** X7. When the wait for the receipt raises, [send_transaction] raises
    the same exception although the signed transaction has been sent: the
    requests made include the broadcast. *)
Theorem send_transaction_fails_after_broadcast e :
  wait_for_transaction_receipt env
    (requests st ++ [RpcGetTransactionCount from_address; RpcGasPrice; RpcChainId;
                     RpcSendRawTransaction signed]) tx_hash
  = inl e →
  send_transaction env from_address to_address amount st = (inl e, after_submission)
  ∧ RpcSendRawTransaction signed ∈ requests after_submission.
Proof.
  intros Hwait. split; [by rewrite send_transaction_to_receipt, Hwait|].
  unfold after_submission, submission_requests. simpl.
  apply elem_of_app. right. do 3 right. left.
Qed.

End Submission.

(** X8. Whatever the collaborators answer, a transaction that
    [send_transaction] broadcasts was signed by [sign_transaction] with
    the key '0x' followed by the sender's stored private key, for the
    given recipient, the given amount in wei and the gas limit 21000. *)
Theorem send_transaction_broadcasts_only_signed env from_address to_address amount st raw :
  RpcSendRawTransaction raw ∉ requests st →
  RpcSendRawTransaction raw ∈ requests (send_transaction env from_address to_address amount st).2 →
  ∃ record pk nonce gasp wei chain,
    accounts st !! KStr from_address = Some record
    ∧ py_getitem record "private_key" = inr (PStr pk)
    ∧ to_wei_ether env amount = inr wei
    ∧ sign_transaction env (mkTransaction nonce to_address wei 21000 gasp chain)
                       ("0x" +:+ pk)
      = inr raw.
Proof.
  intros Hfresh. unfold send_transaction.
  erewrite bind_inr by reflexivity.
  destruct (accounts st !! KStr from_address) as [record|] eqn:Hrec; [|done].
  rewrite bind_lift.
  destruct (py_getitem record "private_key") as [e|pkv] eqn:Hpk; [done|].
  rewrite bind_call.
  destruct (get_transaction_count _ _ _) as [e|nonce]; simpl.
  { intros [?|Hin%list_elem_of_singleton]%elem_of_app; done. }
  rewrite bind_call.
  destruct (gas_price _ _) as [e|gasp]; simpl.
  { rewrite <- app_assoc.
    intros [?|Hin]%elem_of_app; [done|].
    repeat (apply elem_of_cons in Hin as [Hin|Hin]; [done|]).
    by apply elem_of_nil in Hin. }
  rewrite bind_lift.
  destruct (to_wei_ether env amount) as [e|wei] eqn:Hwei; simpl.
  { rewrite <- app_assoc.
    intros [?|Hin]%elem_of_app; [done|].
    repeat (apply elem_of_cons in Hin as [Hin|Hin]; [done|]).
    by apply elem_of_nil in Hin. }
  rewrite bind_call.
  destruct (chain_id _ _) as [e|chain]; simpl.
  { rewrite <- !app_assoc.
    intros [?|Hin]%elem_of_app; [done|].
    repeat (apply elem_of_cons in Hin as [Hin|Hin]; [done|]).
    by apply elem_of_nil in Hin. }
  rewrite bind_lift.
  destruct (concat_0x pkv) as [e|key] eqn:Hkey; simpl.
  { rewrite <- !app_assoc.
    intros [?|Hin]%elem_of_app; [done|].
    repeat (apply elem_of_cons in Hin as [Hin|Hin]; [done|]).
    by apply elem_of_nil in Hin. }
  rewrite bind_lift.
  destruct (sign_transaction _ _ _) as [e|signed] eqn:Hsign; simpl.
  { rewrite <- !app_assoc.
    intros [?|Hin]%elem_of_app; [done|].
    repeat (apply elem_of_cons in Hin as [Hin|Hin]; [done|]).
    by apply elem_of_nil in Hin. }
  assert (Hsigned : RpcSendRawTransaction raw ∈ [RpcSendRawTransaction signed] → raw = signed).
  { intros Hin%list_elem_of_singleton. by injection Hin. }
  destruct pkv as [| | |pk| |]; try discriminate Hkey. injection Hkey as <-.
  intros Hin.
  assert (Hraw : raw = signed).
  { revert Hin. rewrite bind_call.
    destruct (send_raw_transaction _ _ _) as [e|h]; simpl.
    - rewrite <- !app_assoc.
      intros [?|Hin]%elem_of_app; [done|].
      repeat (apply elem_of_cons in Hin as [Hin|Hin]; [try done|]).
      + by injection Hin.
      + by apply elem_of_nil in Hin.
    - rewrite bind_call.
      destruct (wait_for_transaction_receipt _ _ _) as [e|r]; simpl;
        rewrite <- !app_assoc;
        (intros [?|Hin]%elem_of_app; [done|]);
        repeat (apply elem_of_cons in Hin as [Hin|Hin]; [try done|]);
        try (by injection Hin); by apply elem_of_nil in Hin. }
  subst raw. by exists record, pk, nonce, gasp, wei, chain.
Qed.

(** ** Transaction history, beyond the empty result *)

Lemma collect_inr {A B} (f : A → Exn + B) xs ys :
  collect f xs = inr ys ↔ Forall2 (λ x y, f x = inr y) xs ys.
Proof.
  revert ys. induction xs as [|x xs IH]; intros ys; simpl.
  - split; [intros [= <-]; constructor | by intros ->%Forall2_nil_inv_l].
  - unfold and_then at 1. destruct (f x) as [e|y] eqn:Hx.
    + split; [done|]. intros (y' & ys' & Hy & _ & _)%Forall2_cons_inv_l. congruence.
    + unfold and_then. destruct (collect f xs) as [e|ys'] eqn:Hxs.
      * split; [done|]. intros (y' & ys'' & _ & Hys & _)%Forall2_cons_inv_l.
        by apply IH in Hys.
      * split.
        -- intros [= <-]. constructor; [done|]. by apply IH.
        -- intros (y' & ys'' & Hy & Hys & ->)%Forall2_cons_inv_l.
           apply IH in Hys. congruence.
Qed.

Lemma collect_inl {A B} (f : A → Exn + B) xs e :
  collect f xs = inl e
  ↔ ∃ before x after,
      xs = before ++ x :: after
      ∧ Forall (λ x', ∃ y, f x' = inr y) before
      ∧ f x = inl e.
Proof.
  induction xs as [|x xs IH]; simpl.
  - split; [done|]. intros (before & x & after & Heq & _). by destruct before.
  - unfold and_then at 1. destruct (f x) as [e'|y] eqn:Hx.
    + split.
      * intros [= ->]. exists [], x, xs. by split_and!.
      * intros ([|x' before] & x0 & after & Heq & Hbefore & Hfail).
        -- injection Heq as <- _. congruence.
        -- injection Heq as <- _. apply Forall_cons in Hbefore as [[y Hy] _]. congruence.
    + unfold and_then. destruct (collect f xs) as [e'|ys] eqn:Hxs.
      * split.
        -- intros [= ->]. destruct (proj1 IH eq_refl) as (before & x0 & after & -> & Hb & Hf).
           exists (x :: before), x0, after. split_and!; [done| |done].
           constructor; [by eexists | done].
        -- intros ([|x' before] & x0 & after & Heq & Hbefore & Hfail).
           ++ injection Heq as <- _. congruence.
           ++ injection Heq as <- ->. apply Forall_cons in Hbefore as [_ Hbefore].
              f_equal. assert (inl e' = inl e :> Exn + list B) as [= ->]; [|done].
              apply IH. by exists before, x0, after.
      * split; [done|].
        intros ([|x' before] & x0 & after & Heq & Hbefore & Hfail).
        -- injection Heq as <- _. congruence.
        -- injection Heq as <- ->. apply Forall_cons in Hbefore as [_ Hbefore].
           assert (inr ys = inl e :> Exn + list B); [|done].
           apply IH. by exists before, x0, after.
Qed.

Lemma format_transaction_pure env tx st :
  format_transaction env tx st = (summarise env tx, st).
Proof.
  unfold format_transaction, summarise.
  repeat (rewrite bind_lift;
          match goal with
          | |- context [and_then ?r _] => destruct r; simpl and_then; cbv beta; [reflexivity|]
          end).
  reflexivity.
Qed.

Lemma format_all_pure env txs st :
  format_all env txs st = (collect (summarise env) txs, st).
Proof.
  induction txs as [|tx txs IH]; [done|]. simpl.
  unfold mbind, M_bind, bind.
  rewrite format_transaction_pure. destruct (summarise env tx); simpl; [done|].
  rewrite IH. by destruct (collect _ _).
Qed.

(** X9. For a valid address on a configured network,
    [get_transaction_history] sends one request and only one, the
    explorer query for that address (blocks 0 to 99999999, sorted
    descending, with the API key), and changes nothing else, whatever the
    explorer answers and whether the call returns or raises. *)
Theorem history_sends_one_query env address st cfg :
  is_address env address = true →
  lookup_network env (network st) = inr cfg →
  (get_transaction_history env address st).2
  = add_request
      (HttpGet (explorer cfg)
               [ ("module", PStr "account"); ("action", PStr "txlist");
                 ("address", PStr address); ("startblock", PInt 0);
                 ("endblock", PInt 99999999); ("sort", PStr "desc");
                 ("apikey", PStr (explorer_key cfg)) ])
      st.
Proof.
  intros Hvalid Hcfg. unfold get_transaction_history.
  rewrite Hvalid. cbn [negb].
  erewrite bind_inr by reflexivity. rewrite bind_lift, Hcfg, bind_call.
  fold (history_params address (explorer_key cfg)).
  destruct (requests_get _ _ _ _) as [e|response]; [done|].
  case_bool_decide; [|done].
  rewrite bind_lift. destruct (json_body response) as [e|data]; [done|].
  rewrite bind_lift. destruct (py_getitem data "status") as [e|status]; [done|].
  destruct (py_eq_str status "1"); [|done].
  rewrite bind_lift. destruct (py_getitem data "result") as [e|result]; [done|].
  unfold _format_transactions.
  rewrite bind_lift. destruct (py_iter result) as [e|txs]; [done|].
  by rewrite format_all_pure.
Qed.

Section HistoryAnswer.
Context (env : Collaborators) (address : string) (st : State) (cfg : NetworkConfig).
Context (response : Response).

Hypothesis Hvalid : is_address env address = true.
Hypothesis Hcfg : lookup_network env (network st) = inr cfg.
Hypothesis Hanswer :
  requests_get env (requests st) (explorer cfg)
               (history_params address (explorer_key cfg))
  = inr response.
Hypothesis Hok : status_code response = 200.

(** what the method returns once the explorer has answered with 200 *)
Lemma history_after_200 :
  (get_transaction_history env address st).1
  = and_then (json_body response) (λ data,
    and_then (py_getitem data "status") (λ status,
      if py_eq_str status "1" then
        and_then (py_getitem data "result") (λ result,
        and_then (py_iter result) (collect (summarise env)))
      else inr [])).
Proof.
  unfold get_transaction_history.
  rewrite Hvalid. cbn [negb].
  erewrite bind_inr by reflexivity. rewrite bind_lift, Hcfg, bind_call.
  fold (history_params address (explorer_key cfg)). rewrite Hanswer.
  rewrite bool_decide_eq_true_2 by done.
  rewrite bind_lift. destruct (json_body response) as [e|data]; [done|].
  rewrite bind_lift. simpl and_then.
  destruct (py_getitem data "status") as [e|status]; [done|]. simpl and_then.
  destruct (py_eq_str status "1"); [|done].
  rewrite bind_lift. destruct (py_getitem data "result") as [e|result]; [done|].
  unfold _format_transactions.
  rewrite bind_lift. simpl and_then. destruct (py_iter result) as [e|txs]; [done|].
  by rewrite format_all_pure.
Qed.

(** X10. When the explorer answers 200 with status "1", the history has
    one summary per entry of the result, in the explorer's order: the
    call returns a list exactly when every entry can be summarised, and
    then each summary carries the hash, sender and recipient of its
    entry and the label "Success" exactly when the entry's
    'txreceipt_status' is the string "1".  Otherwise the call raises what
    the first entry that cannot be summarised raises. *)
Theorem history_lists_in_explorer_order data status result txs :
  json_body response = inr data →
  py_getitem data "status" = inr status →
  py_eq_str status "1" = true →
  py_getitem data "result" = inr result →
  py_iter result = inr txs →
  (∀ ss, (get_transaction_history env address st).1 = inr ss
         ↔ Forall2 (λ tx s, summarise env tx = inr s) txs ss)
  ∧ (∀ ss, (get_transaction_history env address st).1 = inr ss →
           length ss = length txs
           ∧ Forall2 (λ tx s,
                        py_getitem tx "hash" = inr (s_hash s)
                        ∧ py_getitem tx "from" = inr (s_from s)
                        ∧ py_getitem tx "to" = inr (s_to s)
                        ∧ (s_status s = "Success"
                           ↔ py_getitem tx "txreceipt_status" = inr (PStr "1"))) txs ss)
  ∧ (∀ e, (get_transaction_history env address st).1 = inl e
          ↔ ∃ before tx after,
              txs = before ++ tx :: after
              ∧ Forall (λ tx', ∃ s, summarise env tx' = inr s) before
              ∧ summarise env tx = inl e).
Proof.
  intros Hbody Hstatus Hone Hresult Hiter.
  rewrite history_after_200, Hbody. simpl and_then.
  rewrite Hstatus. simpl and_then. rewrite Hone, Hresult. simpl and_then.
  rewrite Hiter. simpl and_then.
  split_and!.
  - intros ss. apply collect_inr.
  - intros ss Hss%collect_inr. split; [symmetry; by eapply Forall2_length|].
    eapply Forall2_impl; [exact Hss|].
    intros tx s Hs. unfold summarise in Hs.
    repeat match type of Hs with
           | and_then ?r _ = _ =>
               let H := fresh "E" in destruct r eqn:H; simpl and_then in Hs; [discriminate Hs|]
           end.
    injection Hs as <-. simpl. do 3 (split; [done|]).
    match goal with E : py_getitem tx "txreceipt_status" = inr ?v |- _ =>
      destruct v as [| | |s'| |]; simpl; try solve [split; intros [=]]
    end.
    case_bool_decide as Hs'; [by subst s'|].
    split; [intros [=] | intros [= ->]; done].
  - intros e. apply collect_inl.
Qed.

(** X11. When the explorer answers 200 with a body that is not JSON, or
    whose JSON has no usable 'status' entry, or has status "1" but no
    usable 'result' entry, [get_transaction_history] raises the
    exception of that step; it does not return the empty list. *)
Theorem history_raises_on_malformed_body :
  (∀ e, json_body response = inl e →
        (get_transaction_history env address st).1 = inl e)
  ∧ (∀ data e, json_body response = inr data →
               py_getitem data "status" = inl e →
               (get_transaction_history env address st).1 = inl e)
  ∧ (∀ data status e, json_body response = inr data →
                      py_getitem data "status" = inr status →
                      py_eq_str status "1" = true →
                      (py_getitem data "result" = inl e
                       ∨ ∃ result, py_getitem data "result" = inr result
                                   ∧ py_iter result = inl e) →
                      (get_transaction_history env address st).1 = inl e).
Proof.
  rewrite history_after_200. split_and!.
  - by intros e ->.
  - intros data e -> Hstatus. simpl. by rewrite Hstatus.
  - intros data status e -> Hstatus Hone [Hres|(result & Hres & Hiter)];
      simpl; rewrite Hstatus; simpl; rewrite Hone, Hres; simpl; [done|].
    by rewrite Hiter.
Qed.

End HistoryAnswer.

(** ** Start-up *)

(** X12. The module goes on past its environment check exactly when
    INFURA_API_KEY and ETHERSCAN_API_KEY are both set to non-empty
    strings, and then prints nothing.  Otherwise (a variable unset, or
    set to the empty string) it prints five lines, the second naming the
    missing variables one per line in that order, and exits with
    status 1. *)
Theorem check_environment_exits_iff_missing getenv st :
  let infura := unset (getenv "INFURA_API_KEY") in
  let etherscan := unset (getenv "ETHERSCAN_API_KEY") in
  (infura = false ∧ etherscan = false →
   check_environment getenv st = (inr None, st))
  ∧ (infura = true ∨ etherscan = true →
     (check_environment getenv st).1 = inr (Some 1)
     ∧ stdout (check_environment getenv st).2
       = stdout st
         ++ [ "Error: Missing required environment variables:";
              String.concat LF
                ((if infura then ["INFURA_API_KEY"] else [])
                 ++ (if etherscan then ["ETHERSCAN_API_KEY"] else []));
              LF +:+ "Please create a .env file with the following variables:";
              "INFURA_API_KEY=your_infura_key_here";
              "ETHERSCAN_API_KEY=your_etherscan_key_here" ]
     ∧ disk (check_environment getenv st).2 = disk st
     ∧ requests (check_environment getenv st).2 = requests st).
Proof.
  intros infura etherscan.
  assert (Hmissing : missing_vars getenv
                     = (if infura then ["INFURA_API_KEY"] else [])
                       ++ (if etherscan then ["ETHERSCAN_API_KEY"] else [])).
  { unfold missing_vars, required_env_vars. rewrite !filter_cons, filter_nil.
    subst infura etherscan.
    destruct (unset (getenv "INFURA_API_KEY")), (unset (getenv "ETHERSCAN_API_KEY"));
      repeat case_decide; try done. }
  unfold check_environment. rewrite Hmissing. split.
  - intros [-> ->]. reflexivity.
  - intros Hsome.
    destruct infura, etherscan; try (destruct Hsome; discriminate);
      simpl; unfold add_stdout; simpl; rewrite <- !app_assoc; done.
Qed.

(** ** Transaction analysis *)

(** X13. Whatever goes wrong in [analyze_transaction] reaches the caller
    as a [ValueError] whose message is 'Error analyzing transaction: '
    followed by the text of the cause.  When the transaction lookup
    fails, the receipt is not asked for; otherwise both lookups are made,
    the transaction first. *)
Theorem analyze_transaction_wraps_failures node tx_hash st sent :
  let wrapped cause := ValueError ("Error analyzing transaction: " +:+ exn_str cause) in
  let one := sent ++ [LookupTransaction tx_hash] in
  let two := sent ++ [LookupTransaction tx_hash; LookupReceipt tx_hash] in
  (∀ cause, get_transaction node (requests st) sent tx_hash = inl cause →
            analyze_transaction node tx_hash st sent = (inl (wrapped cause), one))
  ∧ (∀ tx cause, get_transaction node (requests st) sent tx_hash = inr tx →
                 get_transaction_receipt node (requests st) one tx_hash = inl cause →
                 analyze_transaction node tx_hash st sent = (inl (wrapped cause), two))
  ∧ (∀ tx receipt cause,
       get_transaction node (requests st) sent tx_hash = inr tx →
       get_transaction_receipt node (requests st) one tx_hash = inr receipt →
       build_analysis node tx_hash tx receipt = inl cause →
       analyze_transaction node tx_hash st sent = (inl (wrapped cause), two))
  ∧ (∀ e, (analyze_transaction node tx_hash st sent).1 = inl e →
          ∃ cause, e = wrapped cause).
Proof.
  intros wrapped one two. unfold analyze_transaction, analyze_try. split_and!.
  - by intros cause ->.
  - intros tx cause -> Hreceipt. fold one. rewrite Hreceipt.
    subst one two. by rewrite <- app_assoc.
  - intros tx receipt cause -> Hreceipt Hbuild. fold one. rewrite Hreceipt, Hbuild.
    subst one two. by rewrite <- app_assoc.
  - intros e.
    destruct (get_transaction _ _ _ _) as [c|tx]; [intros [= <-]; by eexists|].
    destruct (get_transaction_receipt _ _ _ _) as [c|receipt]; [intros [= <-]; by eexists|].
    destruct (build_analysis _ _ _ _) as [c|a]; [intros [= <-]; by eexists | done].
Qed.

(** X14. When both lookups answer and the analysis can be built,
    [analyze_transaction] returns it after exactly two lookups.  The
    hash it reports is the argument; the status is "Success" exactly when
    the receipt's status equals 1; the log count is the length of the
    receipt's list of logs. *)
Theorem analyze_transaction_success node tx_hash st sent tx receipt analysis :
  get_transaction node (requests st) sent tx_hash = inr tx →
  get_transaction_receipt node (requests st) (sent ++ [LookupTransaction tx_hash]) tx_hash
  = inr receipt →
  build_analysis node tx_hash tx receipt = inr analysis →
  analyze_transaction node tx_hash st sent
  = (inr analysis, sent ++ [LookupTransaction tx_hash; LookupReceipt tx_hash])
  ∧ a_hash analysis = tx_hash
  ∧ py_getitem tx "from" = inr (a_from analysis)
  ∧ py_getitem tx "to" = inr (a_to analysis)
  ∧ (∃ status, py_getitem receipt "status" = inr status
               ∧ (r_status analysis = "Success" ↔ py_eq_one status = true))
  ∧ (∃ logs, py_getitem receipt "logs" = inr logs
             ∧ py_len logs = inr (r_logs analysis)).
Proof.
  intros Htx Hreceipt Hbuild. split.
  { unfold analyze_transaction, analyze_try.
    rewrite Htx, Hreceipt, Hbuild. by rewrite <- app_assoc. }
  unfold build_analysis in Hbuild.
  repeat match type of Hbuild with
         | and_then ?r _ = _ =>
             let H := fresh "E" in
             destruct r eqn:H; simpl and_then in Hbuild; [discriminate Hbuild|]
         end.
  injection Hbuild as <-. simpl. split_and!; [done..| |].
  - eexists. split; [done|]. destruct (py_eq_one _); split; done.
  - eexists. by split.
Qed.

(** ** The commands *)

Lemma try_except_inr {A} (m : M A) handler st a st' :
  m st = (inr a, st') → try_except m handler st = (inr a, st').
Proof. intros H. unfold try_except. by rewrite H. Qed.

Lemma try_except_inl {A} (m : M A) handler st e st' :
  m st = (inl e, st') → try_except m handler st = handler e st'.
Proof. intros H. unfold try_except. by rewrite H. Qed.

Lemma try_except_echo (m : M ()) (message : Exn → string) st :
  (try_except m (λ e, echo (message e)) st).1 = inr ().
Proof. unfold try_except. by destruct (m st) as [[e|[]] st']. Qed.

Lemma lookup_sepolia env :
  lookup_network env "sepolia"
  = inr (mkNetworkConfig ("https://sepolia.infura.io/v3/" +:+ INFURA_API_KEY env)
                         "https://api-sepolia.etherscan.io/api"
                         (ETHERSCAN_API_KEY env)
                         "https://sepoliafaucet.com/").
Proof. reflexivity. Qed.

(** the state of a command once its [CryptoWallet()] is constructed *)
Definition started (env : Collaborators) (st : State) : State :=
  foldl (load_step env (default ∅ (disk st))) (init_entry "sepolia" st)
        (listdir env (default ∅ (disk st))).

Lemma init_sepolia env st : __init__ env "sepolia" st = (inr (), started env st).
Proof. apply (init_run env "sepolia" _ st (lookup_sepolia env)). Qed.

Lemma started_fields env st :
  network (started env st) = "sepolia"
  ∧ disk (started env st) = Some (default ∅ (disk st))
  ∧ stdout (started env st)
    = stdout st ++ omap (file_warning env (default ∅ (disk st)))
                        (listdir env (default ∅ (disk st)))
  ∧ requests (started env st) = requests st
  ∧ draws (started env st) = draws st.
Proof.
  unfold started.
  destruct (load_fold_frame env (default ∅ (disk st)) (listdir env (default ∅ (disk st)))
              (init_entry "sepolia" st)) as (-> & -> & _ & -> & ->).
  rewrite load_fold_stdout, init_entry_disk.
  destruct (init_entry_fields "sepolia" st) as (_ & -> & -> & ->).
  split_and!; try done.
  unfold init_entry, makedirs. simpl. by destruct (disk st).
Qed.

Lemma started_accounts_none env st key :
  (∀ n v, file_record env (default ∅ (disk st)) n ≠ Some (key, v)) →
  accounts (started env st) !! key = None.
Proof.
  intros Hnone. unfold started.
  destruct (accounts (foldl _ _ _) !! key) as [v|] eqn:Hlook; [|done].
  apply load_fold_exposed_inv in Hlook as [[Hinit _]|(l1 & n & l2 & Hsplit & Hrec & _)].
  - destruct (init_entry_fields "sepolia" st) as (Hempty & _).
    by rewrite Hempty, lookup_empty in Hinit.
  - exfalso. by eapply Hnone.
Qed.


(** X15. No command lets an exception out: [create], [airdrop], [send],
    [history] and [analyze] return normally whatever their arguments, the
    files and the collaborators do, so the process never ends on a
    failure of theirs. *)
Theorem commands_never_raise env show node st sent address from_address to_address amount
    tx_hash :
  (create env show st).1 = inr ()
  ∧ (airdrop env show address st).1 = inr ()
  ∧ (send env from_address to_address amount st).1 = inr ()
  ∧ (history env show address st).1 = inr ()
  ∧ (analyze env show node tx_hash st sent).1.1 = inr ().
Proof.
  split_and!; try apply try_except_echo.
  unfold analyze.
  destruct (__init__ env "sepolia" st) as [[e|[]] st1]; [done|].
  destruct (analyze_transaction node tx_hash st1 sent) as [[e|a] sent']; done.
Qed.

(** the [create] command when the key derivation succeeds *)
Lemma create_success_fields env show st address :
  let d := default ∅ (disk st) in
  let private_key := token_hex env 32 (draws st) in
  from_key env private_key = inr address →
  (create env show st).1 = inr ()
  ∧ stdout (create env show st).2
    = stdout st ++ omap (file_warning env d) (listdir env d)
      ++ [ LF +:+ "Created new wallet:";
           "Address: " +:+ address;
           "Private key: " +:+ private_key;
           "Public key: " +:+ keccak_text_hex env address ]
  ∧ disk (create env show st).2
    = Some (<[address +:+ ".json"
              := json_dumps env (wallet_record env address private_key)]> d)
  ∧ requests (create env show st).2 = requests st.
Proof.
  intros d private_key Hkey.
  destruct (started_fields env st) as (Hnet & Hdisk & Hout & Hreq & Hdraws).
  fold d in Hdisk, Hout.
  assert (Hkey' : from_key env (token_hex env 32 (draws (started env st))) = inr address)
    by (by rewrite Hdraws).
  pose proof (create_wallet_run env d (started env st) address Hdisk Hkey') as Hrun.
  rewrite Hdraws in Hrun. fold private_key in Hrun.
  unfold create. erewrite try_except_inr; last first.
  { erewrite bind_inr by apply init_sepolia.
    erewrite bind_inr by exact Hrun. reflexivity. }
  simpl. rewrite Hout, Hreq, <- !app_assoc. done.
Qed.

(** X16. The [create] command, over any directory: when the key
    derivation succeeds it writes the wallet file and prints, after the
    warnings for files that could not be loaded, the heading and the
    address, the private key and the public key of the new wallet; when
    the derivation raises it prints 'Error creating wallet: ' and the
    text of the cause, and writes no wallet file.  No request is sent
    either way. *)
Theorem create_prints_wallet env show st :
  let d := default ∅ (disk st) in
  let private_key := token_hex env 32 (draws st) in
  let warnings := omap (file_warning env d) (listdir env d) in
  (∀ address, from_key env private_key = inr address →
     stdout (create env show st).2
     = stdout st ++ warnings
       ++ [ LF +:+ "Created new wallet:";
            "Address: " +:+ address;
            "Private key: " +:+ private_key;
            "Public key: " +:+ keccak_text_hex env address ]
     ∧ disk (create env show st).2
       = Some (<[address +:+ ".json"
                 := json_dumps env (wallet_record env address private_key)]> d)
     ∧ requests (create env show st).2 = requests st)
  ∧ (∀ e, from_key env private_key = inl e →
     stdout (create env show st).2
     = stdout st ++ warnings ++ ["Error creating wallet: " +:+ exn_str e]
     ∧ disk (create env show st).2 = Some d
     ∧ requests (create env show st).2 = requests st).
Proof.
  intros d private_key warnings.
  destruct (started_fields env st) as (Hnet & Hdisk & Hout & Hreq & Hdraws).
  fold d in Hdisk, Hout. fold warnings in Hout. split.
  - intros address Hkey.
    by destruct (create_success_fields env show st address Hkey) as (_ & ? & ? & ?).
  - intros e Hkey. unfold create. erewrite try_except_inl; last first.
    { erewrite bind_inr by apply init_sepolia.
      erewrite bind_inl; [reflexivity|].
      unfold create_wallet. erewrite bind_inr by reflexivity.
      rewrite bind_lift. simpl draws. rewrite Hdraws. fold private_key.
      rewrite Hkey. reflexivity. }
    simpl. by rewrite Hout, Hreq, Hdisk, <- !app_assoc.
Qed.

(** X17. The [airdrop] command always works on the sepolia network: for
    a valid address it prints the request line with the sepolia faucet
    URL and the address, for any other string it prints 'Error
    requesting airdrop: Invalid address'.  It sends no request; its only
    effect on the files is that the directory exists afterwards. *)
Theorem airdrop_prints_sepolia_faucet env show address st :
  let d := default ∅ (disk st) in
  let warnings := omap (file_warning env d) (listdir env d) in
  stdout (airdrop env show address st).2
  = stdout st ++ warnings
    ++ [ if is_address env address
         then LF +:+ "Airdrop request: Please visit https://sepoliafaucet.com/"
                 +:+ " to request tokens for address: " +:+ address
         else "Error requesting airdrop: Invalid address" ]
  ∧ disk (airdrop env show address st).2 = Some d
  ∧ requests (airdrop env show address st).2 = requests st.
Proof.
  intros d warnings.
  destruct (started_fields env st) as (Hnet & Hdisk & Hout & Hreq & Hdraws).
  fold d in Hdisk, Hout. fold warnings in Hout.
  unfold airdrop, request_airdrop.
  destruct (is_address env address) eqn:Hvalid; cbn [negb].
  - erewrite try_except_inr; last first.
    { erewrite bind_inr by apply init_sepolia.
      erewrite bind_inr; last first.
      { erewrite bind_inr by reflexivity. simpl. rewrite Hnet, bind_lift, lookup_sepolia.
        reflexivity. }
      reflexivity. }
    simpl. by rewrite Hout, Hreq, Hdisk, <- !app_assoc.
  - erewrite try_except_inl; last first.
    { erewrite bind_inr by apply init_sepolia. reflexivity. }
    simpl. by rewrite Hout, Hreq, Hdisk, <- !app_assoc.
Qed.

(** X18. The [send] command with a sender that no wallet file of the
    directory holds prints 'Error sending transaction: Sender address not
    found in wallet', sends no request and changes no file. *)
Theorem send_unknown_sender_prints_error env from_address to_address amount st :
  let d := default ∅ (disk st) in
  (∀ n v, file_record env d n ≠ Some (KStr from_address, v)) →
  stdout (send env from_address to_address amount st).2
  = stdout st ++ omap (file_warning env d) (listdir env d)
    ++ ["Error sending transaction: Sender address not found in wallet"]
  ∧ disk (send env from_address to_address amount st).2 = Some d
  ∧ requests (send env from_address to_address amount st).2 = requests st.
Proof.
  intros d Hnone.
  destruct (started_fields env st) as (Hnet & Hdisk & Hout & Hreq & Hdraws).
  fold d in Hdisk, Hout.
  unfold send. erewrite try_except_inl; last first.
  { erewrite bind_inr by apply init_sepolia.
    erewrite bind_inl; [reflexivity|].
    unfold send_transaction. erewrite bind_inr by reflexivity.
    simpl. by rewrite started_accounts_none. }
  simpl. by rewrite Hout, Hreq, Hdisk, <- !app_assoc.
Qed.


(** the method on a valid address when the explorer gives no data *)
Lemma history_without_data env address st cfg :
  is_address env address = true →
  lookup_network env (network st) = inr cfg →
  let params := history_params address (explorer_key cfg) in
  let st' := add_request (HttpGet (explorer cfg) params) st in
  (∀ e, requests_get env (requests st) (explorer cfg) params = inl e →
        get_transaction_history env address st = (inl e, st'))
  ∧ (∀ response, requests_get env (requests st) (explorer cfg) params = inr response →
                 status_code response ≠ 200 →
                 get_transaction_history env address st = (inr [], st')).
Proof.
  intros Hvalid Hcfg params st'. unfold get_transaction_history.
  rewrite Hvalid. cbn [negb].
  erewrite bind_inr by reflexivity. rewrite bind_lift, Hcfg, bind_call.
  fold params. fold st'. split.
  - by intros e ->.
  - intros response -> Hstatus. by rewrite bool_decide_eq_false_2.
Qed.

(** X20. The [history] command prints, after the loading warnings:
    'Error fetching history: Invalid address' for a string that is not an
    address, without any request; 'Error fetching history: ' and the text
    of the cause when the request to the sepolia explorer raises; 'No
    transactions found' when the explorer answers with a status other
    than 200. *)
Theorem history_prints_outcome env show address st :
  let d := default ∅ (disk st) in
  let warnings := omap (file_warning env d) (listdir env d) in
  let params := history_params address (ETHERSCAN_API_KEY env) in
  let answer :=
    requests_get env (requests st) "https://api-sepolia.etherscan.io/api" params in
  (is_address env address = false →
   stdout (history env show address st).2
   = stdout st ++ warnings ++ ["Error fetching history: Invalid address"]
   ∧ requests (history env show address st).2 = requests st)
  ∧ (∀ e, is_address env address = true → answer = inl e →
          stdout (history env show address st).2
          = stdout st ++ warnings ++ ["Error fetching history: " +:+ exn_str e])
  ∧ (∀ response, is_address env address = true → answer = inr response →
                 status_code response ≠ 200 →
                 stdout (history env show address st).2
                 = stdout st ++ warnings ++ ["No transactions found"]).
Proof.
  intros d warnings params answer.
  destruct (started_fields env st) as (Hnet & Hdisk & Hout & Hreq & Hdraws).
  fold d in Hdisk, Hout. fold warnings in Hout.
  assert (Hcfg : lookup_network env (network (started env st))
                 = inr (mkNetworkConfig ("https://sepolia.infura.io/v3/" +:+ INFURA_API_KEY env)
                                        "https://api-sepolia.etherscan.io/api"
                                        (ETHERSCAN_API_KEY env)
                                        "https://sepoliafaucet.com/"))
    by (rewrite Hnet; apply lookup_sepolia).
  unfold history. split_and!.
  - intros Hbad. erewrite try_except_inl; last first.
    { erewrite bind_inr by apply init_sepolia.
      erewrite bind_inl; [reflexivity|].
      unfold get_transaction_history. by rewrite Hbad. }
    simpl. by rewrite Hout, Hreq, <- !app_assoc.
  - intros e Hvalid Hanswer.
    destruct (history_without_data env address (started env st) _ Hvalid Hcfg)
      as [Hfail _].
    erewrite try_except_inl; last first.
    { erewrite bind_inr by apply init_sepolia.
      erewrite bind_inl; [reflexivity|].
      apply Hfail. simpl. by rewrite Hreq. }
    simpl. by rewrite Hout, <- !app_assoc.
  - intros response Hvalid Hanswer Hstatus.
    destruct (history_without_data env address (started env st) _ Hvalid Hcfg)
      as [_ Hempty].
    erewrite try_except_inr; last first.
    { erewrite bind_inr by apply init_sepolia.
      erewrite bind_inr; last first.
      { eapply Hempty; [|exact Hstatus]. simpl. rewrite Hreq. exact Hanswer. }
      reflexivity. }
    simpl. by rewrite Hout, <- !app_assoc.
Qed.

(** X21. The [analyze] command: when the transaction cannot be looked
    up, the line it prints carries the prefix twice, 'Error analyzing
    transaction: Error analyzing transaction: ' and then the text of the
    cause; when the analysis succeeds it prints the two headings and one
    line per entry, labelled 'Hash', 'From', 'To', 'Value', 'Gas Price',
    'Gas Limit', 'Nonce' and 'Status', 'Gas Used', 'Block Number',
    'Block Hash', 'Logs'. *)
Theorem analyze_prints_outcome env show node tx_hash st sent :
  let d := default ∅ (disk st) in
  let warnings := omap (file_warning env d) (listdir env d) in
  (∀ cause, get_transaction node (requests st) sent tx_hash = inl cause →
     stdout (analyze env show node tx_hash st sent).1.2
     = stdout st ++ warnings
       ++ ["Error analyzing transaction: Error analyzing transaction: " +:+ exn_str cause])
  ∧ (∀ tx receipt a,
       get_transaction node (requests st) sent tx_hash = inr tx →
       get_transaction_receipt node (requests st) (sent ++ [LookupTransaction tx_hash]) tx_hash
       = inr receipt →
       build_analysis node tx_hash tx receipt = inr a →
       stdout (analyze env show node tx_hash st sent).1.2
       = stdout st ++ warnings
         ++ [ LF +:+ "Transaction Analysis:";
              LF +:+ "Transaction Details:";
              "Hash: " +:+ a_hash a;
              "From: " +:+ py_str show (a_from a);
              "To: " +:+ py_str show (a_to a);
              "Value: " +:+ number_str show (a_value a);
              "Gas Price: " +:+ number_str show (a_gas_price a);
              "Gas Limit: " +:+ py_str show (a_gas_limit a);
              "Nonce: " +:+ py_str show (a_nonce a);
              LF +:+ "Receipt Details:";
              "Status: " +:+ r_status a;
              "Gas Used: " +:+ py_str show (r_gas_used a);
              "Block Number: " +:+ py_str show (r_block_number a);
              "Block Hash: " +:+ r_block_hash a;
              "Logs: " +:+ pretty (r_logs a) ]).
Proof.
  intros d warnings.
  destruct (started_fields env st) as (Hnet & Hdisk & Hout & Hreq & Hdraws).
  fold d in Hout. fold warnings in Hout.
  unfold analyze. rewrite init_sepolia. split.
  - intros cause Hfail.
    unfold analyze_transaction, analyze_try. rewrite Hreq, Hfail.
    simpl. by rewrite Hout, <- !app_assoc.
  - intros tx receipt a Htx Hreceipt Hbuild.
    unfold analyze_transaction, analyze_try. rewrite Hreq, Htx, Hreceipt, Hbuild.
    simpl. by rewrite Hout, <- !app_assoc.
Qed.

(** * The further properties on examples *)

Definition sepolia_config : NetworkConfig :=
  mkNetworkConfig "https://sepolia.infura.io/v3/infura-key"
                  "https://api-sepolia.etherscan.io/api"
                  "etherscan-key" "https://sepoliafaucet.com/".

Lemma init_unknown_network_witness :
  "mainnet" ≠ "sepolia" ∧ "mainnet" ≠ "goerli"
  ∧ (__init__ Demo.env "mainnet" (Demo.process None)).1 = inl (KeyError "mainnet")
  ∧ disk (__init__ Demo.env "mainnet" (Demo.process None)).2 = None.
Proof.
  assert (H1 : "mainnet" ≠ "sepolia") by (intros H; discriminate H).
  assert (H2 : "mainnet" ≠ "goerli") by (intros H; discriminate H).
  destruct (init_unknown_network Demo.env "mainnet" (Demo.process None) H1 H2)
    as (Hr & Hd & _).
  split_and!; [exact H1 | exact H2 | exact Hr | exact Hd].
Defined.

Lemma init_twice_same_mapping_witness :
  lookup_network Demo.env "sepolia" = inr sepolia_config
  ∧ (__init__ Demo.env "goerli"
       (__init__ Demo.env "sepolia" (Demo.process (Some Demo.cluttered))).2).1 = inr ()
  ∧ accounts (__init__ Demo.env "goerli"
                (__init__ Demo.env "sepolia" (Demo.process (Some Demo.cluttered))).2).2
    = accounts (__init__ Demo.env "sepolia" (Demo.process (Some Demo.cluttered))).2.
Proof.
  assert (H1 : lookup_network Demo.env "sepolia" = inr sepolia_config) by reflexivity.
  assert (H2 : lookup_network Demo.env "goerli"
               = inr (mkNetworkConfig "https://goerli.infura.io/v3/infura-key"
                                      "https://api-goerli.etherscan.io/api"
                                      "etherscan-key" "https://goerlifaucet.com/"))
    by reflexivity.
  destruct (init_twice_same_mapping Demo.env "sepolia" "goerli" _ _
              (Demo.process (Some Demo.cluttered)) H1 H2) as (Hr & Ha & _).
  split_and!; [exact H1 | exact Hr | exact Ha].
Defined.

Lemma create_wallet_failure_leaves_store_witness :
  from_key Demo.env (token_hex Demo.env 32 (draws (Demo.process None))) = inr Demo.address_a
  ∧ disk (Demo.process None) = None
  ∧ create_wallet Demo.env (Demo.process None)
    = (inl (FileNotFoundError ("wallets/" +:+ Demo.address_a +:+ ".json")),
       add_draw (Demo.process None)).
Proof.
  assert (H1 : from_key Demo.env (token_hex Demo.env 32 (draws (Demo.process None)))
               = inr Demo.address_a) by reflexivity.
  assert (H2 : disk (Demo.process None) = None) by reflexivity.
  split_and!; [exact H1 | exact H2 |].
  exact (proj2 (create_wallet_failure_leaves_store Demo.env (Demo.process None))
               Demo.address_a H1 H2).
Defined.

Lemma create_wallet_twice_coexist_witness :
  disk Demo.booted = Some ∅
  ∧ from_key Demo.env (token_hex Demo.env 32 0) = inr Demo.address_a
  ∧ from_key Demo.env (token_hex Demo.env 32 1) = inr Demo.address_b
  ∧ Demo.address_a ≠ Demo.address_b
  ∧ ∃ st2,
      (create_wallet Demo.env ≫= λ _, create_wallet Demo.env) Demo.booted
      = (inr Demo.record_b, st2)
      ∧ accounts st2 !! KStr Demo.address_a = Some Demo.record_a
      ∧ accounts st2 !! KStr Demo.address_b = Some Demo.record_b.
Proof.
  assert (H1 : disk Demo.booted = Some ∅) by reflexivity.
  assert (H2 : from_key Demo.env (token_hex Demo.env 32 0) = inr Demo.address_a)
    by reflexivity.
  assert (H3 : from_key Demo.env (token_hex Demo.env 32 1) = inr Demo.address_b)
    by reflexivity.
  assert (H4 : Demo.address_a ≠ Demo.address_b) by (intros H; discriminate H).
  split_and!; [exact H1 | exact H2 | exact H3 | exact H4 |].
  destruct (create_wallet_twice_coexist Demo.env Demo.booted ∅ _ _ H1 H2 H3 H4)
    as (st2 & d2 & Hrun & Ha & Hb & _).
  exists st2. split_and!; [exact Hrun | exact Ha | exact Hb].
Defined.

Lemma send_transaction_missing_private_key_witness :
  accounts DemoNode.keyless !! KStr Demo.address_a
  = Some (PDict [("address", PStr Demo.address_a)])
  ∧ py_getitem (PDict [("address", PStr Demo.address_a)]) "private_key"
    = inl (KeyError "private_key")
  ∧ send_transaction Demo.env Demo.address_a Demo.address_b (1 # 1) DemoNode.keyless
    = (inl (KeyError "private_key"), DemoNode.keyless).
Proof.
  assert (H1 : accounts DemoNode.keyless !! KStr Demo.address_a
               = Some (PDict [("address", PStr Demo.address_a)]))
    by apply lookup_singleton_eq.
  assert (H2 : py_getitem (PDict [("address", PStr Demo.address_a)]) "private_key"
               = inl (KeyError "private_key")) by reflexivity.
  split_and!; [exact H1 | exact H2 |].
  exact (send_transaction_missing_private_key Demo.env _ _ _ _ _ _ H1 H2).
Defined.

Lemma send_transaction_success_witness :
  accounts Demo.stored !! KStr Demo.address_a = Some Demo.record_a
  ∧ sign_transaction Demo.env
      (mkTransaction 7 Demo.address_b 1000000000000000000 21000 1000000000 11155111)
      ("0x" +:+ Demo.key_a)
    = inr ("signed:" +:+ Demo.address_b)
  ∧ send_transaction Demo.env Demo.address_a Demo.address_b (1 # 1) Demo.stored
    = (inr "0xf00d",
       after_submission Demo.stored Demo.address_a ("signed:" +:+ Demo.address_b) "f00d").
Proof.
  assert (H1 : accounts Demo.stored !! KStr Demo.address_a = Some Demo.record_a)
    by apply lookup_singleton_eq.
  assert (H2 : sign_transaction Demo.env
                 (mkTransaction 7 Demo.address_b 1000000000000000000 21000 1000000000
                                11155111)
                 ("0x" +:+ Demo.key_a)
               = inr ("signed:" +:+ Demo.address_b)) by reflexivity.
  split_and!; [exact H1 | exact H2 |].
  exact (send_transaction_success Demo.env Demo.stored Demo.address_a Demo.address_b (1 # 1)
           Demo.record_a Demo.key_a 7 1000000000 1000000000000000000 11155111
           ("signed:" +:+ Demo.address_b) "f00d"
           H1 eq_refl eq_refl eq_refl eq_refl eq_refl H2 eq_refl PNone eq_refl).
Defined.

Lemma send_transaction_fails_after_broadcast_witness :
  accounts Demo.stored !! KStr Demo.address_a = Some Demo.record_a
  ∧ wait_for_transaction_receipt DemoNode.stalled
      (requests Demo.stored
       ++ [ RpcGetTransactionCount Demo.address_a; RpcGasPrice; RpcChainId;
            RpcSendRawTransaction ("signed:" +:+ Demo.address_b) ]) "f00d"
    = inl (OtherError "TimeExhausted" "Transaction f00d is not in the chain")
  ∧ send_transaction DemoNode.stalled Demo.address_a Demo.address_b (1 # 1) Demo.stored
    = (inl (OtherError "TimeExhausted" "Transaction f00d is not in the chain"),
       after_submission Demo.stored Demo.address_a ("signed:" +:+ Demo.address_b) "f00d")
  ∧ RpcSendRawTransaction ("signed:" +:+ Demo.address_b)
    ∈ requests (after_submission Demo.stored Demo.address_a
                                 ("signed:" +:+ Demo.address_b) "f00d").
Proof.
  assert (H1 : accounts Demo.stored !! KStr Demo.address_a = Some Demo.record_a)
    by apply lookup_singleton_eq.
  assert (H2 : wait_for_transaction_receipt DemoNode.stalled
                 (requests Demo.stored
                  ++ [ RpcGetTransactionCount Demo.address_a; RpcGasPrice; RpcChainId;
                       RpcSendRawTransaction ("signed:" +:+ Demo.address_b) ]) "f00d"
               = inl (OtherError "TimeExhausted" "Transaction f00d is not in the chain"))
    by reflexivity.
  split_and!; [exact H1 | exact H2 | |];
    apply (send_transaction_fails_after_broadcast
             DemoNode.stalled Demo.stored Demo.address_a Demo.address_b (1 # 1)
             Demo.record_a Demo.key_a 7 1000000000 1000000000000000000 11155111
             ("signed:" +:+ Demo.address_b) "f00d"
             H1 eq_refl eq_refl eq_refl eq_refl eq_refl eq_refl eq_refl _ H2).
Defined.

Lemma send_transaction_broadcasts_only_signed_witness :
  (RpcSendRawTransaction ("signed:" +:+ Demo.address_b) ∉ requests Demo.stored)
  ∧ (RpcSendRawTransaction ("signed:" +:+ Demo.address_b)
     ∈ requests (send_transaction Demo.env Demo.address_a Demo.address_b (1 # 1)
                                  Demo.stored).2)
  ∧ ∃ record pk nonce gasp wei chain,
      accounts Demo.stored !! KStr Demo.address_a = Some record
      ∧ py_getitem record "private_key" = inr (PStr pk)
      ∧ to_wei_ether Demo.env (1 # 1) = inr wei
      ∧ sign_transaction Demo.env (mkTransaction nonce Demo.address_b wei 21000 gasp chain)
                         ("0x" +:+ pk)
        = inr ("signed:" +:+ Demo.address_b).
Proof.
  assert (H1 : RpcSendRawTransaction ("signed:" +:+ Demo.address_b) ∉ requests Demo.stored)
    by apply not_elem_of_nil.
  assert (H2 : RpcSendRawTransaction ("signed:" +:+ Demo.address_b)
               ∈ requests (send_transaction Demo.env Demo.address_a Demo.address_b (1 # 1)
                                            Demo.stored).2).
  { vm_compute. do 3 right. left. }
  split_and!; [exact H1 | exact H2 |].
  exact (send_transaction_broadcasts_only_signed Demo.env _ _ _ _ _ H1 H2).
Defined.

Lemma history_sends_one_query_witness :
  is_address DemoNode.busy Demo.address_a = true
  ∧ lookup_network DemoNode.busy (network Demo.booted) = inr sepolia_config
  ∧ (get_transaction_history DemoNode.busy Demo.address_a Demo.booted).2
    = add_request
        (HttpGet "https://api-sepolia.etherscan.io/api"
                 [ ("module", PStr "account"); ("action", PStr "txlist");
                   ("address", PStr Demo.address_a); ("startblock", PInt 0);
                   ("endblock", PInt 99999999); ("sort", PStr "desc");
                   ("apikey", PStr "etherscan-key") ])
        Demo.booted.
Proof.
  assert (H1 : is_address DemoNode.busy Demo.address_a = true) by reflexivity.
  assert (H2 : lookup_network DemoNode.busy (network Demo.booted) = inr sepolia_config)
    by reflexivity.
  split_and!; [exact H1 | exact H2 |].
  exact (history_sends_one_query DemoNode.busy Demo.address_a Demo.booted _ H1 H2).
Defined.

Lemma history_lists_in_explorer_order_witness :
  is_address DemoNode.busy Demo.address_a = true
  ∧ requests_get DemoNode.busy (requests Demo.booted) (explorer sepolia_config)
                 (history_params Demo.address_a (explorer_key sepolia_config))
    = inr (mkResponse 200 (inr DemoNode.listing))
  ∧ ∃ s1 s2,
      (get_transaction_history DemoNode.busy Demo.address_a Demo.booted).1 = inr [s1; s2]
      ∧ s_hash s1 = PStr "0xbb" ∧ s_status s1 = "Success"
      ∧ s_hash s2 = PStr "0xaa" ∧ s_status s2 = "Failed".
Proof.
  assert (H1 : is_address DemoNode.busy Demo.address_a = true) by reflexivity.
  assert (H2 : lookup_network DemoNode.busy (network Demo.booted) = inr sepolia_config)
    by reflexivity.
  assert (H3 : requests_get DemoNode.busy (requests Demo.booted) (explorer sepolia_config)
                 (history_params Demo.address_a (explorer_key sepolia_config))
               = inr (mkResponse 200 (inr DemoNode.listing))) by reflexivity.
  split_and!; [exact H1 | exact H3 |].
  destruct (history_lists_in_explorer_order
              DemoNode.busy Demo.address_a Demo.booted sepolia_config
              (mkResponse 200 (inr DemoNode.listing)) H1 H2 H3 eq_refl
              DemoNode.listing (PStr "1")
              (PList [DemoNode.entry "0xbb" (PStr "1"); DemoNode.entry "0xaa" (PStr "0")])
              [DemoNode.entry "0xbb" (PStr "1"); DemoNode.entry "0xaa" (PStr "0")]
              eq_refl eq_refl eq_refl eq_refl eq_refl) as (Hiff & _ & _).
  eexists _, _. split.
  - apply Hiff. repeat constructor; reflexivity.
  - split_and!; reflexivity.
Defined.

Lemma history_raises_on_malformed_body_witness :
  is_address DemoNode.garbled Demo.address_a = true
  ∧ requests_get DemoNode.garbled (requests Demo.booted) (explorer sepolia_config)
                 (history_params Demo.address_a (explorer_key sepolia_config))
    = inr (mkResponse 200 (inl (OtherError "JSONDecodeError" "Expecting value")))
  ∧ (get_transaction_history DemoNode.garbled Demo.address_a Demo.booted).1
    = inl (OtherError "JSONDecodeError" "Expecting value").
Proof.
  assert (H1 : is_address DemoNode.garbled Demo.address_a = true) by reflexivity.
  assert (H2 : lookup_network DemoNode.garbled (network Demo.booted) = inr sepolia_config)
    by reflexivity.
  assert (H3 : requests_get DemoNode.garbled (requests Demo.booted) (explorer sepolia_config)
                 (history_params Demo.address_a (explorer_key sepolia_config))
               = inr (mkResponse 200 (inl (OtherError "JSONDecodeError" "Expecting value"))))
    by reflexivity.
  split_and!; [exact H1 | exact H3 |].
  exact (proj1 (history_raises_on_malformed_body
                  DemoNode.garbled Demo.address_a Demo.booted sepolia_config _
                  H1 H2 H3 eq_refl) _ eq_refl).
Defined.

Lemma check_environment_exits_iff_missing_witness :
  unset (DemoNode.getenv_blank "ETHERSCAN_API_KEY") = true
  ∧ (check_environment DemoNode.getenv_blank Demo.booted).1 = inr (Some 1)
  ∧ stdout (check_environment DemoNode.getenv_blank Demo.booted).2
    = [ "Error: Missing required environment variables:";
        "ETHERSCAN_API_KEY";
        LF +:+ "Please create a .env file with the following variables:";
        "INFURA_API_KEY=your_infura_key_here";
        "ETHERSCAN_API_KEY=your_etherscan_key_here" ]
  ∧ check_environment DemoNode.getenv_set Demo.booted = (inr None, Demo.booted).
Proof.
  assert (H1 : unset (DemoNode.getenv_blank "ETHERSCAN_API_KEY") = true) by reflexivity.
  destruct (proj2 (check_environment_exits_iff_missing DemoNode.getenv_blank Demo.booted)
                  (or_intror H1)) as (Hr & Hout & _).
  split_and!; [exact H1 | exact Hr | exact Hout |].
  exact (proj1 (check_environment_exits_iff_missing DemoNode.getenv_set Demo.booted)
               (conj eq_refl eq_refl)).
Defined.

Lemma analyze_transaction_wraps_failures_witness :
  get_transaction DemoNode.blind (requests Demo.booted) [] "0xdead"
  = inl (OtherError "TransactionNotFound" "Transaction with hash: '0xdead' not found.")
  ∧ analyze_transaction DemoNode.blind "0xdead" Demo.booted []
    = (inl (ValueError
              "Error analyzing transaction: Transaction with hash: '0xdead' not found."),
       [LookupTransaction "0xdead"]).
Proof.
  assert (H : get_transaction DemoNode.blind (requests Demo.booted) [] "0xdead"
              = inl (OtherError "TransactionNotFound"
                                "Transaction with hash: '0xdead' not found."))
    by reflexivity.
  split; [exact H|].
  exact (proj1 (analyze_transaction_wraps_failures DemoNode.blind "0xdead" Demo.booted [])
               _ H).
Defined.

Lemma analyze_transaction_success_witness :
  get_transaction DemoNode.node (requests Demo.booted) [] "0xbeef"
  = inr DemoNode.mined_transaction
  ∧ ∃ analysis,
      build_analysis DemoNode.node "0xbeef" DemoNode.mined_transaction DemoNode.mined_receipt
      = inr analysis
      ∧ analyze_transaction DemoNode.node "0xbeef" Demo.booted []
        = (inr analysis, [LookupTransaction "0xbeef"; LookupReceipt "0xbeef"])
      ∧ a_hash analysis = "0xbeef"
      ∧ r_status analysis = "Success"
      ∧ r_logs analysis = 0.
Proof.
  assert (H1 : get_transaction DemoNode.node (requests Demo.booted) [] "0xbeef"
               = inr DemoNode.mined_transaction) by reflexivity.
  split; [exact H1|].
  eexists. split; [reflexivity|].
  destruct (analyze_transaction_success DemoNode.node "0xbeef" Demo.booted []
              DemoNode.mined_transaction DemoNode.mined_receipt _ H1 eq_refl eq_refl)
    as (Hrun & Hhash & _).
  split_and!; [exact Hrun | exact Hhash | reflexivity | reflexivity].
Defined.

Lemma create_prints_wallet_witness :
  from_key Demo.env (token_hex Demo.env 32 (draws (Demo.process None))) = inr Demo.address_a
  ∧ stdout (create Demo.env DemoNode.show (Demo.process None)).2
    = [ LF +:+ "Created new wallet:";
        "Address: " +:+ Demo.address_a;
        "Private key: " +:+ Demo.key_a;
        "Public key: keccak:" +:+ Demo.address_a ]
  ∧ requests (create Demo.env DemoNode.show (Demo.process None)).2 = [].
Proof.
  assert (H : from_key Demo.env (token_hex Demo.env 32 (draws (Demo.process None)))
              = inr Demo.address_a) by reflexivity.
  destruct (proj1 (create_prints_wallet Demo.env DemoNode.show (Demo.process None))
                  Demo.address_a H) as (Hout & _ & Hreq).
  split_and!; [exact H | exact Hout | exact Hreq].
Defined.

Lemma send_unknown_sender_prints_error_witness :
  (∀ n v, file_record Demo.env (default ∅ (disk (Demo.process None))) n
          ≠ Some (KStr Demo.address_a, v))
  ∧ stdout (send Demo.env Demo.address_a Demo.address_b (1 # 1) (Demo.process None)).2
    = ["Error sending transaction: Sender address not found in wallet"]
  ∧ requests (send Demo.env Demo.address_a Demo.address_b (1 # 1) (Demo.process None)).2
    = [].
Proof.
  assert (H : ∀ n v, file_record Demo.env (default ∅ (disk (Demo.process None))) n
                     ≠ Some (KStr Demo.address_a, v)).
  { intros n v. unfold file_record, load_file. simpl default. rewrite lookup_empty.
    destruct (endswith n ".json"); intros Heq; discriminate Heq. }
  destruct (send_unknown_sender_prints_error Demo.env Demo.address_a Demo.address_b (1 # 1)
              (Demo.process None) H) as (Hout & _ & Hreq).
  split_and!; [exact H | exact Hout | exact Hreq].
Defined.


Lemma history_prints_outcome_witness :
  is_address DemoNode.down Demo.address_a = true
  ∧ requests_get DemoNode.down (requests (Demo.process None))
                 "https://api-sepolia.etherscan.io/api"
                 (history_params Demo.address_a (ETHERSCAN_API_KEY DemoNode.down))
    = inr (mkResponse 503 (inl (OtherError "JSONDecodeError" "Expecting value")))
  ∧ stdout (history DemoNode.down DemoNode.show Demo.address_a (Demo.process None)).2
    = ["No transactions found"]
  ∧ stdout (history DemoNode.down DemoNode.show "0x123" (Demo.process None)).2
    = ["Error fetching history: Invalid address"].
Proof.
  assert (H1 : is_address DemoNode.down Demo.address_a = true) by reflexivity.
  assert (H2 : requests_get DemoNode.down (requests (Demo.process None))
                 "https://api-sepolia.etherscan.io/api"
                 (history_params Demo.address_a (ETHERSCAN_API_KEY DemoNode.down))
               = inr (mkResponse 503 (inl (OtherError "JSONDecodeError" "Expecting value"))))
    by reflexivity.
  assert (H3 : status_code (mkResponse 503 (inl (OtherError "JSONDecodeError"
                                                            "Expecting value"))) ≠ 200)
    by (intros H; discriminate H).
  split_and!; [exact H1 | exact H2 | |].
  - exact (proj2 (proj2 (history_prints_outcome DemoNode.down DemoNode.show Demo.address_a
                           (Demo.process None))) _ H1 H2 H3).
  - exact (proj1 (proj1 (history_prints_outcome DemoNode.down DemoNode.show "0x123"
                           (Demo.process None)) eq_refl)).
Defined.

Lemma analyze_prints_outcome_witness :
  get_transaction DemoNode.blind (requests (Demo.process None)) [] "0xdead"
  = inl (OtherError "TransactionNotFound" "Transaction with hash: '0xdead' not found.")
  ∧ stdout (analyze Demo.env DemoNode.show DemoNode.blind "0xdead" (Demo.process None) []).1.2
    = [ "Error analyzing transaction: Error analyzing transaction: "
        +:+ "Transaction with hash: '0xdead' not found." ].
Proof.
  assert (H : get_transaction DemoNode.blind (requests (Demo.process None)) [] "0xdead"
              = inl (OtherError "TransactionNotFound"
                                "Transaction with hash: '0xdead' not found."))
    by reflexivity.
  split; [exact H|].
  exact (proj1 (analyze_prints_outcome Demo.env DemoNode.show DemoNode.blind "0xdead"
                  (Demo.process None) []) _ H).
Defined.
